(** * mcp-image-validator: the vision-request pipeline

    A shallow embedding of [ollama_vision_client.py] (class
    [OllamaVisionClient]) and of the tool boundary and bootstrap of
    [server.py], followed by the properties of the pipeline.

    Python strings are modelled as [string], file contents as [list byte],
    Python [int] as [Z] and Python [float] as a primitive float.  Exceptions
    are values carrying their class and their [str()]; the file system, the
    image decoder and the remote provider are an explicit environment
    [Env], and every call to them is recorded in a trace of events.

    Scope of the model.  A [string] is ASCII text and [lower] acts on the
    letters A-Z, as [str.lower] does on such text; on other text
    [str.lower] also maps letters outside ASCII, which changes the text of
    a message but not the membership of an extension in the table, whose
    keys are ASCII.  A stat may fail: [Path.exists] and [Path.is_file]
    answer [True] or [False], or raise the [OSError] of the stat.  An event
    of the provider is one call of the client library, which may send its
    request more than once.  Signals outside [Exception], such as
    [KeyboardInterrupt], are not modelled. *)

From Stdlib Require Import String Ascii List Bool Arith ZArith NArith Lia.
From Stdlib Require Import DecimalString.
From Stdlib.Strings Require Import Byte.
From Stdlib.Floats Require Import PrimFloat.
Import ListNotations.

Local Open Scope list_scope.
Local Open Scope string_scope.

(* ================================================================= *)
(** ** Python values used by the program                              *)
(* ================================================================= *)

(** [not s] for a string. *)
Definition str_is_empty (s : string) : bool :=
  match s with
  | EmptyString => true
  | String _ _ => false
  end.

(** [x or default] for an [Optional[str]] on the left. *)
Definition str_or (x : option string) (default : string) : string :=
  match x with
  | None => default
  | Some s => if str_is_empty s then default else s
  end.

Definition is_upper (c : ascii) : bool :=
  let n := nat_of_ascii c in (Nat.leb 65 n && Nat.leb n 90)%bool.

Definition is_lower (c : ascii) : bool :=
  let n := nat_of_ascii c in (Nat.leb 97 n && Nat.leb n 122)%bool.

Definition lower_char (c : ascii) : ascii :=
  if is_upper c then ascii_of_nat (nat_of_ascii c + 32) else c.

(** [s.lower()] on ASCII text: the letters A-Z become a-z, every other
    character is kept. *)
Fixpoint lower (s : string) : string :=
  match s with
  | EmptyString => EmptyString
  | String c r => String (lower_char c) (lower r)
  end.

(** [sep.join(l)]. *)
Fixpoint join (sep : string) (l : list string) : string :=
  match l with
  | [] => ""
  | [x] => x
  | x :: r => x ++ sep ++ join sep r
  end.

(** Two characters that differ at most by letter case. *)
Inductive same_letter : ascii -> ascii -> Prop :=
| same_letter_refl c : same_letter c c
| same_letter_up c : is_lower c = true ->
    same_letter (ascii_of_nat (nat_of_ascii c - 32)) c
| same_letter_down c : is_lower c = true ->
    same_letter c (ascii_of_nat (nat_of_ascii c - 32)).

(** Two strings equal up to letter case, character by character. *)
Inductive eq_upto_case : string -> string -> Prop :=
| euc_nil : eq_upto_case "" ""
| euc_cons c d s t :
    same_letter c d -> eq_upto_case s t ->
    eq_upto_case (String c s) (String d t).

(** [t in s] for strings, as a proposition. *)
Definition occurs_in (t s : string) : Prop :=
  exists pre post, s = pre ++ t ++ post.

(* ----------------------------------------------------------------- *)
(** *** base64.b64encode                                              *)
(* ----------------------------------------------------------------- *)

Definition b64_alphabet : string :=
  "ABCDEFGHIJKLMNOPQRSTUVWXYZabcdefghijklmnopqrstuvwxyz0123456789+/".

Definition b64_char (n : N) : ascii :=
  match String.get (N.to_nat (N.land n 63)) b64_alphabet with
  | Some c => c
  | None => "="%char
  end.

Definition b64_pad : ascii := "="%char.

(** Three input bytes become four characters; a last group of one or two
    bytes is padded with [=]. *)
Fixpoint b64encode (bs : list byte) : string :=
  match bs with
  | [] => ""
  | [a] =>
      let n := N.shiftl (Byte.to_N a) 16 in
      String (b64_char (N.shiftr n 18))
        (String (b64_char (N.shiftr n 12))
           (String b64_pad (String b64_pad "")))
  | [a; b] =>
      let n := N.lor (N.shiftl (Byte.to_N a) 16) (N.shiftl (Byte.to_N b) 8) in
      String (b64_char (N.shiftr n 18))
        (String (b64_char (N.shiftr n 12))
           (String (b64_char (N.shiftr n 6)) (String b64_pad "")))
  | a :: b :: c :: rest =>
      let n := N.lor (N.lor (N.shiftl (Byte.to_N a) 16)
                            (N.shiftl (Byte.to_N b) 8)) (Byte.to_N c) in
      String (b64_char (N.shiftr n 18))
        (String (b64_char (N.shiftr n 12))
           (String (b64_char (N.shiftr n 6))
              (String (b64_char n) (b64encode rest))))
  end.

(* ----------------------------------------------------------------- *)
(** *** Exceptions                                                    *)
(* ----------------------------------------------------------------- *)

(** The exception classes the program raises or names in an [except]
    clause; [IOError] is Python's alias of [OSError].  [OtherException]
    stands for any other subclass of [Exception] a library raises. *)
Inductive ExcClass : Type :=
| FileNotFoundError
| OSError
| ValueError
| RuntimeError
| IndexError
| OtherException.

(** An exception value: its class and [str(e)]. *)
Record Exc : Type := mkExc { exc_class : ExcClass; exc_str : string }.

(** [isinstance(e, c)] along the builtin hierarchy, in which
    [FileNotFoundError] derives from [OSError]. *)
Definition isinstance (e : Exc) (c : ExcClass) : bool :=
  match exc_class e, c with
  | FileNotFoundError, FileNotFoundError => true
  | FileNotFoundError, OSError => true
  | OSError, OSError => true
  | ValueError, ValueError => true
  | RuntimeError, RuntimeError => true
  | IndexError, IndexError => true
  | OtherException, OtherException => true
  | _, _ => false
  end.

Inductive Outcome (A : Type) : Type :=
| Return (a : A)
| Raise (e : Exc).
Arguments Return {A} a.
Arguments Raise {A} e.

(* ================================================================= *)
(** ** The remote API and the environment                             *)
(* ================================================================= *)

(** One part of a message's [content] array. *)
Inductive ContentPart : Type :=
| TextPart (text : string)            (* {"type": "text", "text": ...} *)
| ImageUrlPart (url : string).        (* {"type": "image_url", "image_url": {"url": ...}} *)

Record Message : Type := mkMessage {
  role : string;
  content : list ContentPart
}.

(** The keyword arguments of [client.chat.completions.create]. *)
Record ChatRequest : Type := mkChatRequest {
  req_model : string;
  req_messages : list Message;
  req_temperature : float;
  req_max_tokens : Z
}.

(** A chat-completion response: for each element of [choices], its
    [message.content], which may be [None]. *)
Record ChatResponse : Type := mkChatResponse {
  choices : list (option string)
}.

(** What the program asks of the outside world: one event for each call
    the program makes.  [EvChatCreate] and [EvModelsList] are calls of
    methods of the provider's client library; what the library sends for
    one call, a single HTTP request or the same request again after a
    failure, is the library's and is not part of the trace. *)
Inductive Event : Type :=
| EvExists (p : string)               (* Path.exists: a stat *)
| EvIsFile (p : string)               (* Path.is_file: a stat *)
| EvImageVerify (p : string)          (* Image.open + verify: reads the file *)
| EvReadFile (p : string)             (* open(p, 'rb').read() *)
| EvChatCreate (r : ChatRequest)      (* client.chat.completions.create(...) *)
| EvModelsList.                       (* client.models.list() *)

Definition Trace : Type := list Event.

Definition is_file_read (ev : Event) : bool :=
  match ev with
  | EvImageVerify _ | EvReadFile _ => true
  | _ => false
  end.

Definition is_network_call (ev : Event) : bool :=
  match ev with
  | EvChatCreate _ | EvModelsList => true
  | _ => false
  end.

Definition file_reads (t : Trace) : nat := length (filter is_file_read t).

(** The number of calls of the provider's client library in a trace.  A
    trace without such a call is a run in which nothing is sent to the
    provider. *)
Definition network_calls (t : Trace) : nat := length (filter is_network_call t).

(** What [Path.exists] and [Path.is_file] do on a path.  They answer [True]
    or [False]; a stat that fails because the path is absent (ENOENT,
    ENOTDIR, EBADF, ELOOP) is answered [False].  A stat that fails for
    another reason, a name longer than the file system allows or a
    directory that may not be searched, makes the method raise that
    [OSError]: Python 3.11 does so.  A release of Python in which the
    methods answer [False] for every failing stat is an environment
    without [StatError]. *)
Inductive StatAnswer : Type :=
| Answer (b : bool)
| StatError (message : string).

(** The answers of the outside world during one run. *)
Record Env : Type := mkEnv {
  fs_exists : string -> StatAnswer;
  fs_is_file : string -> StatAnswer;
  pil_verify : string -> Outcome unit;
  fs_read : string -> Outcome (list byte);
  api_chat_create : ChatRequest -> Outcome ChatResponse;
  api_models_list : Outcome unit;
  openai_new : string -> string -> Outcome unit;
  environ : string -> option string;
  float_of_str : string -> Outcome float;
  int_of_str : string -> Outcome Z
}.

(* ----------------------------------------------------------------- *)
(** *** The monad: environment, trace and exceptions                  *)
(* ----------------------------------------------------------------- *)

Definition M (A : Type) : Type := Env -> Trace * Outcome A.

Definition ret {A} (a : A) : M A := fun _ => ([], Return a).

Definition raise {A} (e : Exc) : M A := fun _ => ([], Raise e).

Definition bind {A B} (m : M A) (f : A -> M B) : M B :=
  fun env =>
    match m env with
    | (t1, Return a) => let (t2, r) := f a env in ((t1 ++ t2)%list, r)
    | (t1, Raise e) => (t1, Raise e)
    end.

(** [try: m  except Exception as e: h e]. *)
Definition try_except {A} (m : M A) (h : Exc -> M A) : M A :=
  fun env =>
    match m env with
    | (t1, Return a) => (t1, Return a)
    | (t1, Raise e) => let (t2, r) := h e env in ((t1 ++ t2)%list, r)
    end.

(** An external call: one event, and the environment's answer. *)
Definition perform {A} (ev : Event) (answer : Env -> Outcome A) : M A :=
  fun env => ([ev], answer env).

(** A look at the process environment, which leaves no event. *)
Definition ask {A} (answer : Env -> Outcome A) : M A :=
  fun env => ([], answer env).

Declare Scope py_scope.
Delimit Scope py_scope with py.
Notation "x <- m ;; k" := (bind m (fun x => k))
  (at level 61, m at next level, right associativity) : py_scope.
Notation "m ;;; k" := (bind m (fun _ => k))
  (at level 61, right associativity) : py_scope.
Local Open Scope py_scope.

(** The result of a method of [Path] that stats the path. *)
Definition stat_outcome (a : StatAnswer) : Outcome bool :=
  match a with
  | Answer b => Return b
  | StatError message => Raise (mkExc OSError message)
  end.

Definition Path_exists (p : string) : M bool :=
  perform (EvExists p) (fun env => stat_outcome (fs_exists env p)).

Definition Path_is_file (p : string) : M bool :=
  perform (EvIsFile p) (fun env => stat_outcome (fs_is_file env p)).

Definition Image_open_verify (p : string) : M unit :=
  perform (EvImageVerify p) (fun env => pil_verify env p).

Definition open_rb_read (p : string) : M (list byte) :=
  perform (EvReadFile p) (fun env => fs_read env p).

(** One call of [client.chat.completions.create]: what it returns or
    raises in the end, after whatever attempts the library makes. *)
Definition chat_completions_create (r : ChatRequest) : M ChatResponse :=
  perform (EvChatCreate r) (fun env => api_chat_create env r).

Definition models_list : M unit :=
  perform EvModelsList api_models_list.

Definition OpenAI (api_key base_url : string) : M unit :=
  ask (fun env => openai_new env api_key base_url).

Definition os_getenv (name : string) : M (option string) :=
  ask (fun env => Return (environ env name)).

Definition os_getenv_default (name default : string) : M string :=
  ask (fun env => Return (match environ env name with
                          | Some v => v
                          | None => default
                          end)).

Definition float_ (s : string) : M float := ask (fun env => float_of_str env s).
Definition int_ (s : string) : M Z := ask (fun env => int_of_str env s).

(** [l[0]]. *)
Definition index0 {A} (l : list A) : M A :=
  match l with
  | x :: _ => ret x
  | [] => raise (mkExc IndexError "list index out of range")
  end.

(** Python dictionaries with string keys, in insertion order. *)
Definition dict : Type := list (string * string).

Definition dict_keys (d : dict) : list string := map fst d.

(** [k in d]. *)
Definition dict_contains (d : dict) (k : string) : bool :=
  existsb (fun kv => String.eqb (fst kv) k) d.

(** [d.get(k, default)]. *)
Definition dict_get (d : dict) (k default : string) : string :=
  match find (fun kv => String.eqb (fst kv) k) d with
  | Some kv => snd kv
  | None => default
  end.

(* ================================================================= *)
(** ** ollama_vision_client.py                                        *)
(* ================================================================= *)

Module ollama_vision_client.

(** The attributes of an [OllamaVisionClient]; its [client] attribute is
    the provider handle, whose calls are answered by the environment. *)
Record OllamaVisionClient : Type := mkClient {
  api_key : string;
  base_url : string;
  model : string;
  temperature : float;
  max_tokens : Z
}.

Definition SUPPORTED_FORMATS : dict :=
  [ (".jpg", "image/jpeg");
    (".jpeg", "image/jpeg");
    (".png", "image/png");
    (".gif", "image/gif");
    (".webp", "image/webp");
    (".bmp", "image/bmp") ].

Definition default_base_url : string := "https://ollama.com/v1".
Definition default_model : string := "qwen3-vl:235b-cloud".
Definition default_temperature : float := 0x1.999999999999ap-3%float.
Definition default_max_tokens : Z := 1000%Z.
Definition default_prompt : string := "Describe this image in detail.".

Definition __init__ (api_key base_url model : string)
    (temperature : float) (max_tokens : Z) : M OllamaVisionClient :=
  OpenAI api_key base_url ;;;
  ret (mkClient api_key base_url model temperature max_tokens).

Section WithPathlib.

(** [Path(p).suffix], which depends on the platform's path flavour. *)
Variable suffix : string -> string.

Definition _get_mime_type (file_path : string) : string :=
  let ext := lower (suffix file_path) in
  dict_get SUPPORTED_FORMATS ext "image/jpeg".

Definition _validate_image (file_path : string) : M unit :=
  let ext := lower (suffix file_path) in
  if negb (dict_contains SUPPORTED_FORMATS ext) then
    raise (mkExc ValueError
             ("Unsupported image format: " ++ ext ++ ". "
              ++ "Supported formats: "
              ++ join ", " (dict_keys SUPPORTED_FORMATS)))
  else
    try_except (Image_open_verify file_path)
      (fun e => raise (mkExc ValueError
                         ("Invalid or corrupted image file: " ++ exc_str e))).

Definition _encode_image (file_path : string) : M string :=
  try_except
    (bytes <- open_rb_read file_path ;;
     ret (b64encode bytes))
    (fun e => raise (mkExc OSError
                       ("Failed to read image file: " ++ exc_str e))).

(** The request sent for an image of MIME type [mime_type] and payload
    [base64_image]. *)
Definition chat_request (self : OllamaVisionClient)
    (user_prompt mime_type base64_image : string) : ChatRequest :=
  mkChatRequest (model self)
    [ mkMessage "user"
        [ TextPart user_prompt;
          ImageUrlPart ("data:" ++ mime_type ++ ";base64," ++ base64_image) ] ]
    (temperature self) (max_tokens self).

Definition describe_image (self : OllamaVisionClient)
    (image_path : string) (prompt : option string) : M string :=
  let file_path := image_path in
  found <- Path_exists file_path ;;
  if negb found then
    raise (mkExc FileNotFoundError ("Image file not found: " ++ image_path))
  else
    _validate_image file_path ;;;
    base64_image <- _encode_image file_path ;;
    let mime_type := _get_mime_type file_path in
    let user_prompt := str_or prompt "Describe this image in detail." in
    try_except
      (response <- chat_completions_create
                     (chat_request self user_prompt mime_type base64_image) ;;
       description <- index0 (choices response) ;;
       match description with
       | Some text =>
           if str_is_empty text then
             raise (mkExc RuntimeError "Empty response from vision model")
           else
             ret text
       | None =>
           raise (mkExc RuntimeError "Empty response from vision model")
       end)
      (fun e => raise (mkExc RuntimeError
                         ("Ollama Cloud API error: " ++ exc_str e))).

End WithPathlib.

Definition check_connection (self : OllamaVisionClient) : M (bool * string) :=
  try_except
    (models_list ;;;
     ret (true, "Connected to " ++ base_url self))
    (fun e => ret (false, "Cannot connect to Ollama Cloud: " ++ exc_str e)).

End ollama_vision_client.

(* ================================================================= *)
(** ** server.py                                                      *)
(* ================================================================= *)

Module server.

Import ollama_vision_client.

(** The module body up to the construction of the global client. *)
Definition module_init : M OllamaVisionClient :=
  OLLAMA_API_KEY <- os_getenv "OLLAMA_API_KEY" ;;
  OLLAMA_BASE_URL <- os_getenv_default "OLLAMA_BASE_URL" "https://ollama.com/v1" ;;
  VISION_MODEL <- os_getenv_default "VISION_MODEL" "qwen3-vl:235b-cloud" ;;
  temperature_str <- os_getenv_default "VISION_TEMPERATURE" "0.2" ;;
  VISION_TEMPERATURE <- float_ temperature_str ;;
  max_tokens_str <- os_getenv_default "VISION_MAX_TOKENS" "1000" ;;
  VISION_MAX_TOKENS <- int_ max_tokens_str ;;
  match OLLAMA_API_KEY with
  | Some key =>
      if str_is_empty key then
        raise (mkExc ValueError "OLLAMA_API_KEY not set")
      else
        __init__ key OLLAMA_BASE_URL VISION_MODEL
          VISION_TEMPERATURE VISION_MAX_TOKENS
  | None =>
      raise (mkExc ValueError "OLLAMA_API_KEY not set")
  end.

Section WithPathlib.

(** [Path(p).suffix] and [str(Path(p).absolute())]; the latter depends on
    the working directory. *)
Variable suffix : string -> string.
Variable absolute : string -> string.

(** The global client of the module. *)
Variable ollama_client : OllamaVisionClient.

(** The three [except] clauses of the tool, tried in order. *)
Definition translate (e : Exc) : M string :=
  if isinstance e FileNotFoundError then
    raise (mkExc RuntimeError ("File not found: " ++ exc_str e))
  else if isinstance e ValueError then
    raise (mkExc RuntimeError ("Invalid input: " ++ exc_str e))
  else
    raise (mkExc RuntimeError ("Error describing image: " ++ exc_str e)).

(** The body of the tool, over the method [core] it delegates to. *)
Definition describe_image_with (core : string -> option string -> M string)
    (image_path : string) (prompt : option string) : M string :=
  try_except
    (found <- Path_exists image_path ;;
     if negb found then
       raise (mkExc FileNotFoundError ("Image file not found: " ++ image_path))
     else
       is_file <- Path_is_file image_path ;;
       if negb is_file then
         raise (mkExc ValueError ("Path is not a file: " ++ image_path))
       else
         description <- core (absolute image_path) prompt ;;
         ret description)
    translate.

(** The tool [describe_image], which delegates to
    [ollama_client.describe_image]. *)
Definition describe_image (image_path : string) (prompt : option string)
    : M string :=
  describe_image_with
    (ollama_vision_client.describe_image suffix ollama_client)
    image_path prompt.

End WithPathlib.

End server.

(* ================================================================= *)
(** ** A sample platform and sample environments                      *)
(* ================================================================= *)

Module Sample.

Import ollama_vision_client.

(** The final component of a POSIX path: what follows the last [/]. *)
Fixpoint path_name (p : string) : string :=
  match p with
  | EmptyString => EmptyString
  | String c r =>
      match String.index 0 "/" r with
      | Some _ => path_name r
      | None => if Ascii.eqb c "/" then r else p
      end
  end.

(** [name.rfind('.')], counted from position [pos]. *)
Fixpoint rfind_dot (name : string) (pos : nat) : option nat :=
  match name with
  | EmptyString => None
  | String c r =>
      match rfind_dot r (S pos) with
      | Some i => Some i
      | None => if Ascii.eqb c "." then Some pos else None
      end
  end.

(** [PurePosixPath(p).suffix]: the part of the name from its last dot,
    unless that dot is the first or the last character of the name. *)
Definition posix_suffix (p : string) : string :=
  let name := path_name p in
  match rfind_dot name 0 with
  | Some i =>
      if (Nat.ltb 0 i && Nat.ltb i (String.length name - 1))%bool then
        substring i (String.length name - i) name
      else ""
  | None => ""
  end.

(** The working directory is [/srv]. *)
Definition posix_absolute (p : string) : string :=
  match p with
  | String "/" _ => p
  | _ => "/srv/" ++ p
  end.

Definition client : OllamaVisionClient :=
  mkClient "sk-test" default_base_url default_model default_temperature
    default_max_tokens.

(** The first bytes of a PNG file. *)
Definition png_bytes : list byte :=
  [x89; x50; x4e; x47; x0d; x0a; x1a; x0a].

(** The request [client] sends for a PNG file holding [png_bytes] when the
    caller gives no prompt. *)
Definition request : ChatRequest :=
  mkChatRequest "qwen3-vl:235b-cloud"
    [ mkMessage "user"
        [ TextPart "Describe this image in detail.";
          ImageUrlPart "data:image/png;base64,iVBORw0KGgo=" ] ]
    default_temperature 1000.

(** An environment in which the paths in [files] exist as regular files,
    those in [images] decode as images, those in [readable] can be read and
    hold [png_bytes], and in which the provider answers every request with
    [chat]. *)
Definition env_with (files images readable : list string)
    (chat : Outcome ChatResponse) (models : Outcome unit) : Env :=
  let among l p := existsb (String.eqb p) l in
  mkEnv (fun p => Answer (among files p)) (fun p => Answer (among files p))
    (fun p => if among images p then Return tt
              else Raise (mkExc OSError "cannot identify image file"))
    (fun p => if among readable p then Return png_bytes
              else Raise (mkExc OSError "[Errno 13] Permission denied"))
    (fun _ => chat)
    models
    (fun _ _ => Return tt)
    (fun _ => None)
    (fun _ => Return default_temperature)
    (fun _ => Return default_max_tokens).

Definition answer (text : option string) : Outcome ChatResponse :=
  Return (mkChatResponse [text]).

(** The provider describes the image. *)
Definition env_ok : Env :=
  env_with ["t.png"; "/srv/t.png"; "notes.txt"; "PHOTO.JPG"; "text.png";
            "locked.png"; "draft.txt"; "/srv/draft.txt"]
    ["t.png"; "/srv/t.png"; "PHOTO.JPG"; "locked.png"]
    ["t.png"; "/srv/t.png"; "PHOTO.JPG"; "notes.txt"; "text.png"]
    (answer (Some "a red square")) (Return tt).

(** The provider answers with an empty string. *)
Definition env_empty_content : Env :=
  env_with ["t.png"] ["t.png"] ["t.png"] (answer (Some "")) (Return tt).

(** The provider answers without content. *)
Definition env_no_content : Env :=
  env_with ["t.png"] ["t.png"] ["t.png"] (answer None) (Return tt).

(** The call to the provider fails. *)
Definition env_transport_failure : Env :=
  env_with ["t.png"] ["t.png"] ["t.png"]
    (Raise (mkExc OtherException "Empty response from vision model"))
    (Raise (mkExc OtherException "Connection error.")).


(** The process environment sets [OLLAMA_API_KEY] to [key]. *)
Definition env_with_key (key : option string) : Env :=
  mkEnv (fs_exists env_ok) (fs_is_file env_ok) (pil_verify env_ok)
    (fs_read env_ok) (api_chat_create env_ok) (api_models_list env_ok)
    (openai_new env_ok)
    (fun name => if String.eqb name "OLLAMA_API_KEY" then key else None)
    (float_of_str env_ok) (int_of_str env_ok).

End Sample.

Import ollama_vision_client.

(** The extensions the specification lists as supported. *)
Definition supported_extensions : list string :=
  [".jpg"; ".jpeg"; ".png"; ".gif"; ".webp"; ".bmp"].

(** The message of the error raised for the unsupported extension [ext]. *)
Definition unsupported_message (ext : string) : string :=
  "Unsupported image format: " ++ ext
  ++ ". Supported formats: .jpg, .jpeg, .png, .gif, .webp, .bmp".

(** How [describe_image] reads the provider's answer to its request. *)
Definition interpret (answer : Outcome ChatResponse) : Outcome string :=
  match answer with
  | Raise e =>
      Raise (mkExc RuntimeError ("Ollama Cloud API error: " ++ exc_str e))
  | Return response =>
      match choices response with
      | [] =>
          Raise (mkExc RuntimeError
                   "Ollama Cloud API error: list index out of range")
      | None :: _ | Some EmptyString :: _ =>
          Raise (mkExc RuntimeError
                   "Ollama Cloud API error: Empty response from vision model")
      | Some text :: _ => Return text
      end
  end.

(** The words the tool puts before the text of an error of the core. *)
Definition translate_prefix (e : Exc) : string :=
  match exc_class e with
  | FileNotFoundError => "File not found: "
  | ValueError => "Invalid input: "
  | OSError | RuntimeError | IndexError | OtherException =>
      "Error describing image: "
  end.

(* ================================================================= *)
(** ** Decoding the payload                                           *)
(* ================================================================= *)

(** The value of a character of the base64 alphabet. *)
Definition b64_value (c : ascii) : option N :=
  let n := N_of_ascii c in
  if (N.leb 65 n && N.leb n 90)%bool then Some (n - 65)%N
  else if (N.leb 97 n && N.leb n 122)%bool then Some (n - 71)%N
  else if (N.leb 48 n && N.leb n 57)%bool then Some (n + 4)%N
  else if N.eqb n 43 then Some 62%N
  else if N.eqb n 47 then Some 63%N
  else None.

(** The 24-bit group of three bytes, and of four 6-bit values. *)
Definition b64_group (a b c : N) : N :=
  N.lor (N.lor (N.shiftl a 16) (N.shiftl b 8)) c.

Definition b64_join (v0 v1 v2 v3 : N) : N :=
  N.lor (N.lor (N.lor (N.shiftl v0 18) (N.shiftl v1 12)) (N.shiftl v2 6)) v3.

(** The byte of [n] that starts at bit [k]. *)
Definition byte_at (n k : N) : byte :=
  match Byte.of_N (N.land (N.shiftr n k) 255) with
  | Some b => b
  | None => x00
  end.

(** Decoding of a padded base64 string, group by group: four characters
    give three bytes, a last group padded with [=] gives one or two.  The
    result is [None] when a group is incomplete or holds a character
    outside the alphabet.  On the strings [b64encode] produces this is
    what [base64.b64decode] computes. *)
Fixpoint b64decode (s : string) : option (list byte) :=
  match s with
  | EmptyString => Some []
  | String c0 (String c1 (String c2 (String c3 rest))) =>
      match b64_value c0, b64_value c1 with
      | Some v0, Some v1 =>
          if Ascii.eqb c3 b64_pad then
            match rest with
            | EmptyString =>
                if Ascii.eqb c2 b64_pad then
                  Some [byte_at (b64_join v0 v1 0 0) 16]
                else
                  match b64_value c2 with
                  | Some v2 =>
                      let n := b64_join v0 v1 v2 0 in
                      Some [byte_at n 16; byte_at n 8]
                  | None => None
                  end
            | String _ _ => None
            end
          else
            match b64_value c2, b64_value c3, b64decode rest with
            | Some v2, Some v3, Some bytes =>
                let n := b64_join v0 v1 v2 v3 in
                Some (byte_at n 16 :: byte_at n 8 :: byte_at n 0 :: bytes)
            | _, _, _ => None
            end
      | _, _ => None
      end
  | _ => None
  end.

(** A character of the base64 alphabet, or the padding character. *)
Definition is_b64_symbol (c : ascii) : bool :=
  (existsb (Ascii.eqb c) (list_ascii_of_string b64_alphabet)
   || Ascii.eqb c b64_pad)%bool.

(** The MIME types of the table. *)
Definition mime_types : list string :=
  ["image/jpeg"; "image/png"; "image/gif"; "image/webp"; "image/bmp"].

(** The events of a complete run of [describe_image] on [p]. *)
Definition full_trace (p : string) (request : ChatRequest) : Trace :=
  [EvExists p; EvImageVerify p; EvReadFile p; EvChatCreate request].

(** The events of a complete run of the tool on [p], whose absolute path
    is [q]. *)
Definition full_tool_trace (p q : string) (request : ChatRequest) : Trace :=
  EvExists p :: EvIsFile p :: full_trace q request.

(* ================================================================= *)
(** ** The program with its log records                               *)
(* ================================================================= *)

Module Logging.

Inductive Level : Type := DEBUG | INFO | ERROR.

(** A step of a run: a call to the outside world, or a record handed to
    the logger [logger] at level [level], whether or not the configured
    level lets it through to a handler. *)
Inductive Step : Type :=
| Ext (ev : Event)
| Log (logger : string) (level : Level) (message : string).

Definition L (A : Type) : Type := Env -> list Step * Outcome A.

Definition lret {A} (a : A) : L A := fun _ => ([], Return a).

Definition lraise {A} (e : Exc) : L A := fun _ => ([], Raise e).

Definition lbind {A B} (m : L A) (f : A -> L B) : L B :=
  fun env =>
    match m env with
    | (t1, Return a) => let (t2, r) := f a env in ((t1 ++ t2)%list, r)
    | (t1, Raise e) => (t1, Raise e)
    end.

Definition ltry_except {A} (m : L A) (h : Exc -> L A) : L A :=
  fun env =>
    match m env with
    | (t1, Return a) => (t1, Return a)
    | (t1, Raise e) => let (t2, r) := h e env in ((t1 ++ t2)%list, r)
    end.

(** A computation that does not log. *)
Definition lift {A} (m : M A) : L A :=
  fun env => let (t, r) := m env in (map Ext t, r).

(** [logging.getLogger(logger).log(level, message)]. *)
Definition log (logger : string) (level : Level) (message : string) : L unit :=
  fun _ => ([Log logger level message], Return tt).

(** The calls to the outside world among the steps. *)
Fixpoint events (steps : list Step) : Trace :=
  match steps with
  | [] => []
  | Ext ev :: rest => ev :: events rest
  | Log _ _ _ :: rest => events rest
  end.

(** The log records among the steps. *)
Fixpoint records (steps : list Step) : list (string * Level * string) :=
  match steps with
  | [] => []
  | Ext _ :: rest => records rest
  | Log logger level message :: rest => (logger, level, message) :: records rest
  end.

(** [str(n)] for a length. *)
Definition str_of_nat (n : nat) : string :=
  NilEmpty.string_of_uint (Nat.to_uint n).

End Logging.

Declare Scope log_scope.
Delimit Scope log_scope with log.
Notation "x <- m ;; k" := (Logging.lbind m (fun x => k))
  (at level 61, m at next level, right associativity) : log_scope.
Notation "m ;;; k" := (Logging.lbind m (fun _ => k))
  (at level 61, right associativity) : log_scope.

Module ollama_vision_client_logged.

Import Logging.
Local Open Scope log_scope.

Definition logger : string := "OllamaVisionClient".

Definition __init__ (api_key base_url model : string)
    (temperature : float) (max_tokens : Z) : L OllamaVisionClient :=
  lift (OpenAI api_key base_url) ;;;
  log logger INFO "Initialized Ollama Cloud client" ;;;
  log logger INFO ("Base URL: " ++ base_url) ;;;
  log logger INFO ("Model: " ++ model) ;;;
  lret (mkClient api_key base_url model temperature max_tokens).

Section WithPathlib.

(** [Path(p).suffix] and [Path(p).name]. *)
Variable suffix : string -> string.
Variable name : string -> string.

Definition _encode_image (file_path : string) : L string :=
  ltry_except
    (bytes <- lift (open_rb_read file_path) ;;
     let encoded := b64encode bytes in
     log logger DEBUG
       ("Encoded image: " ++ name file_path ++ " ("
        ++ str_of_nat (String.length encoded) ++ " bytes)") ;;;
     lret encoded)
    (fun e => lraise (mkExc OSError
                        ("Failed to read image file: " ++ exc_str e))).

Definition describe_image (self : OllamaVisionClient)
    (image_path : string) (prompt : option string) : L string :=
  let file_path := image_path in
  found <- lift (Path_exists file_path) ;;
  if negb found then
    lraise (mkExc FileNotFoundError ("Image file not found: " ++ image_path))
  else
    lift (_validate_image suffix file_path) ;;;
    base64_image <- _encode_image file_path ;;
    let mime_type := _get_mime_type suffix file_path in
    let user_prompt := str_or prompt "Describe this image in detail." in
    log logger INFO "Analyzing image with Ollama Cloud" ;;;
    log logger INFO ("Model: " ++ model self) ;;;
    log logger INFO ("Prompt: " ++ user_prompt) ;;;
    ltry_except
      (response <- lift (chat_completions_create
                           (chat_request self user_prompt mime_type
                              base64_image)) ;;
       description <- lift (index0 (choices response)) ;;
       match description with
       | Some text =>
           if str_is_empty text then
             lraise (mkExc RuntimeError "Empty response from vision model")
           else
             log logger INFO
               ("Successfully received description ("
                ++ str_of_nat (String.length text) ++ " chars)") ;;;
             lret text
       | None =>
           lraise (mkExc RuntimeError "Empty response from vision model")
       end)
      (fun e =>
         let error_msg := "Ollama Cloud API error: " ++ exc_str e in
         log logger ERROR error_msg ;;;
         lraise (mkExc RuntimeError error_msg)).

End WithPathlib.

Definition check_connection (self : OllamaVisionClient) : L (bool * string) :=
  ltry_except
    (lift models_list ;;;
     log logger INFO "Successfully connected to Ollama Cloud" ;;;
     lret (true, "Connected to " ++ base_url self))
    (fun e =>
       let error_msg := "Cannot connect to Ollama Cloud: " ++ exc_str e in
       log logger ERROR error_msg ;;;
       lret (false, error_msg)).

End ollama_vision_client_logged.

Module server_logged.

Import Logging.
Local Open Scope log_scope.

Definition logger : string := "MCP_Image_Validator".

(** The module body up to the construction of the global client. *)
Definition module_init : L OllamaVisionClient :=
  OLLAMA_API_KEY <- lift (os_getenv "OLLAMA_API_KEY") ;;
  OLLAMA_BASE_URL <-
    lift (os_getenv_default "OLLAMA_BASE_URL" "https://ollama.com/v1") ;;
  VISION_MODEL <-
    lift (os_getenv_default "VISION_MODEL" "qwen3-vl:235b-cloud") ;;
  temperature_str <- lift (os_getenv_default "VISION_TEMPERATURE" "0.2") ;;
  VISION_TEMPERATURE <- lift (float_ temperature_str) ;;
  max_tokens_str <- lift (os_getenv_default "VISION_MAX_TOKENS" "1000") ;;
  VISION_MAX_TOKENS <- lift (int_ max_tokens_str) ;;
  match OLLAMA_API_KEY with
  | Some key =>
      if str_is_empty key then
        log logger ERROR "OLLAMA_API_KEY environment variable is required" ;;;
        lraise (mkExc ValueError "OLLAMA_API_KEY not set")
      else
        ollama_vision_client_logged.__init__ key OLLAMA_BASE_URL VISION_MODEL
          VISION_TEMPERATURE VISION_MAX_TOKENS
  | None =>
      log logger ERROR "OLLAMA_API_KEY environment variable is required" ;;;
      lraise (mkExc ValueError "OLLAMA_API_KEY not set")
  end.

Section WithPathlib.

Variable suffix : string -> string.
Variable name : string -> string.
Variable absolute : string -> string.

(** The global client of the module. *)
Variable ollama_client : OllamaVisionClient.

(** The three [except] clauses of the tool, tried in order. *)
Definition translate (e : Exc) : L string :=
  if isinstance e FileNotFoundError then
    let error_msg := "File not found: " ++ exc_str e in
    log logger ERROR error_msg ;;;
    lraise (mkExc RuntimeError error_msg)
  else if isinstance e ValueError then
    let error_msg := "Invalid input: " ++ exc_str e in
    log logger ERROR error_msg ;;;
    lraise (mkExc RuntimeError error_msg)
  else
    let error_msg := "Error describing image: " ++ exc_str e in
    log logger ERROR error_msg ;;;
    lraise (mkExc RuntimeError error_msg).

Definition describe_image (image_path : string) (prompt : option string)
    : L string :=
  log logger INFO ("Analyzing image: " ++ image_path) ;;;
  match prompt with
  | Some text =>
      if str_is_empty text then lret tt
      else log logger INFO ("Custom prompt: " ++ text)
  | None => lret tt
  end ;;;
  ltry_except
    (found <- lift (Path_exists image_path) ;;
     if negb found then
       let error_msg := "Image file not found: " ++ image_path in
       log logger ERROR error_msg ;;;
       lraise (mkExc FileNotFoundError error_msg)
     else
       is_file <- lift (Path_is_file image_path) ;;
       if negb is_file then
         let error_msg := "Path is not a file: " ++ image_path in
         log logger ERROR error_msg ;;;
         lraise (mkExc ValueError error_msg)
       else
         description <-
           ollama_vision_client_logged.describe_image suffix name
             ollama_client (absolute image_path) prompt ;;
         log logger INFO
           ("Successfully described image: " ++ name image_path) ;;;
         lret description)
    translate.

End WithPathlib.

End server_logged.

(* ================================================================= *)
(** ** test_full.py                                                   *)
(* ================================================================= *)

Module test_full.

(** The control flow of the script, its calls to the client and to the
    outside world, and its results.  What the script prints is left out,
    and with it a failure of [print] itself, which needs a standard output
    that cannot encode the text. *)

(** [c.isspace()] for an ASCII character. *)
Definition py_isspace (c : ascii) : bool :=
  let n := nat_of_ascii c in
  ((Nat.leb 9 n && Nat.leb n 13) || (Nat.leb 28 n && Nat.leb n 32))%bool.

(** Membership in the two quote characters, double and single. *)
Definition is_quote (c : ascii) : bool :=
  let n := nat_of_ascii c in
  (Nat.eqb n 34 || Nat.eqb n 39)%bool.

(** [s.lstrip(chars)], [s.rstrip(chars)] and [s.strip(chars)], the
    characters to drop given as a predicate. *)
Fixpoint lstrip (drop : ascii -> bool) (s : string) : string :=
  match s with
  | EmptyString => EmptyString
  | String c r => if drop c then lstrip drop r else s
  end.

Fixpoint rstrip (drop : ascii -> bool) (s : string) : string :=
  match s with
  | EmptyString => EmptyString
  | String c r =>
      match rstrip drop r with
      | EmptyString => if drop c then EmptyString else String c EmptyString
      | String d r' => String c (String d r')
      end
  end.

Definition strip (drop : ascii -> bool) (s : string) : string :=
  rstrip drop (lstrip drop s).

Definition test_images : list string :=
  ["test.jpg"; "test.png"; "sample.jpg"; "sample.png"].

(** The loop over the candidate names, left at the first one that
    exists. *)
Fixpoint find_test_image (names : list string) : M (option string) :=
  match names with
  | [] => ret None
  | img_name :: rest =>
      found <- Path_exists img_name ;;
      if found then ret (Some img_name) else find_test_image rest
  end.

(** Where the search for an image ends: with a path, or with the result
    the test returns at once. *)
Inductive Search : Type :=
| Image (test_image_path : string)
| Result (result : option bool).

(** What [input()] does: it returns a line, raises [EOFError] at the end of
    the input, or raises another exception. *)
Inductive Input : Type :=
| Line (text : string)
| EndOfFile
| InputError (e : Exc).

Section WithPathlib.

Variable suffix : string -> string.
Variable absolute : string -> string.

(** [stdin] is what [input()] does when it is called.  The result is
    [Some true] for [True], [Some false] for [False] and [None] for
    [None]. *)
Definition test_full_flow (stdin : Input) : M (option bool) :=
  api_key <- os_getenv "OLLAMA_API_KEY" ;;
  match api_key with
  | None => ret (Some false)
  | Some key =>
      if str_is_empty key then ret (Some false)
      else
        base_url <- os_getenv_default "OLLAMA_BASE_URL" "https://ollama.com/v1" ;;
        model <- os_getenv_default "VISION_MODEL" "qwen3-vl:235b-cloud" ;;
        created <-
          try_except
            (client <- __init__ key base_url model default_temperature
                         default_max_tokens ;;
             ret (Some client))
            (fun _ => ret None) ;;
        match created with
        | None => ret (Some false)
        | Some client =>
            status <- check_connection client ;;
            if negb (fst status) then ret (Some false)
            else
              candidate <- find_test_image test_images ;;
              search <-
                match candidate with
                | Some img_name => ret (Image img_name)
                | None =>
                    match stdin with
                    | EndOfFile => ret (Result None)
                    | InputError e => raise e
                    | Line line =>
                        let user_path := strip py_isspace line in
                        if str_is_empty user_path then ret (Result None)
                        else
                          let user_path := strip is_quote user_path in
                          found <- Path_exists user_path ;;
                          if negb found then ret (Result (Some false))
                          else ret (Image user_path)
                    end
                end ;;
              match search with
              | Result result => ret result
              | Image test_image_path =>
                  try_except
                    (description <-
                       describe_image suffix client (absolute test_image_path)
                         (Some "Describe this image in detail.") ;;
                     ret (Some true))
                    (fun _ => ret (Some false))
              end
        end
  end.

(** The exit code. *)
Definition main (stdin : Input) : M Z :=
  result <- test_full_flow stdin ;;
  match result with
  | Some true => ret 0%Z
  | None => ret 0%Z
  | Some false => ret 1%Z
  end.

End WithPathlib.

End test_full.

(* ================================================================= *)
(** ** More sample environments                                       *)
(* ================================================================= *)

Module Sample2.

(** [PurePosixPath(p).name]. *)
Definition posix_name : string -> string := Sample.path_name.

(** The process environment [vars] over the files and the provider of
    [base]. *)
Definition with_environ (vars : list (string * string)) (base : Env) : Env :=
  mkEnv (fs_exists base) (fs_is_file base) (pil_verify base) (fs_read base)
    (api_chat_create base) (api_models_list base) (openai_new base)
    (fun name => option_map snd
                   (find (fun kv => String.eqb (fst kv) name) vars))
    (float_of_str base) (int_of_str base).

(** The numeric settings do not parse. *)
Definition with_bad_numbers (base : Env) : Env :=
  mkEnv (fs_exists base) (fs_is_file base) (pil_verify base) (fs_read base)
    (api_chat_create base) (api_models_list base) (openai_new base)
    (environ base)
    (fun s => Raise (mkExc ValueError
                       ("could not convert string to float: '" ++ s ++ "'")))
    (int_of_str base).

(** The file [gone.png] exists and decodes, but has vanished when it is
    opened for reading. *)
Definition env_vanished : Env :=
  mkEnv
    (fun p => Answer (String.eqb p "/srv/gone.png" || String.eqb p "gone.png")%bool)
    (fun p => Answer (String.eqb p "gone.png"))
    (fun _ => Return tt)
    (fun _ => Raise (mkExc FileNotFoundError
                       "[Errno 2] No such file or directory: '/srv/gone.png'"))
    (api_chat_create Sample.env_ok) (api_models_list Sample.env_ok)
    (openai_new Sample.env_ok) (environ Sample.env_ok)
    (float_of_str Sample.env_ok) (int_of_str Sample.env_ok).

(** The files [sample.jpg] and [/srv/sample.jpg], a key in the process
    environment, and a provider that describes the image. *)
Definition env_test : Env :=
  with_environ [("OLLAMA_API_KEY", "sk-test")]
    (Sample.env_with ["sample.jpg"; "/srv/sample.jpg"; "sample.png"]
       ["/srv/sample.jpg"] ["/srv/sample.jpg"]
       (Sample.answer (Some "a red square")) (Return tt)).

(** As [env_test], with a provider that cannot be reached. *)
Definition env_test_offline : Env :=
  with_environ [("OLLAMA_API_KEY", "sk-test")]
    (Sample.env_with ["sample.jpg"; "/srv/sample.jpg"]
       ["/srv/sample.jpg"] ["/srv/sample.jpg"]
       (Raise (mkExc OtherException "Connection error."))
       (Raise (mkExc OtherException "Connection error."))).

(** The provider answers with an empty list of choices. *)
Definition env_no_choices : Env :=
  Sample.env_with ["t.png"] ["t.png"] ["t.png"]
    (Return (mkChatResponse [])) (Return tt).

(** The provider answers with two choices. *)
Definition env_two_choices : Env :=
  Sample.env_with ["t.png"] ["t.png"] ["t.png"]
    (Return (mkChatResponse [Some "first"; Some "second"])) (Return tt).

(** A name of 300 letters and the extension [.png].  It is longer than
    the 255 bytes a file system allows for a name, so no file of that name
    exists. *)
Definition long_name : string :=
  string_of_list_ascii (repeat "a"%char 300) ++ ".png".

(** The files and the provider of [base] on a file system whose names
    are at most 255 bytes long: the stat of a path with a longer name
    fails with [ENAMETOOLONG], whatever else the path is. *)
Definition with_name_max (base : Env) : Env :=
  let stat (answer : string -> StatAnswer) (p : string) :=
    if Nat.ltb 255 (String.length (posix_name p)) then
      StatError ("[Errno 36] File name too long: '" ++ p ++ "'")
    else answer p in
  mkEnv (stat (fs_exists base)) (stat (fs_is_file base)) (pil_verify base)
    (fs_read base) (api_chat_create base) (api_models_list base)
    (openai_new base) (environ base) (float_of_str base) (int_of_str base).

(** [Sample.env_ok] with that limit on names. *)
Definition env_name_max : Env := with_name_max Sample.env_ok.

End Sample2.

(** [os.getenv(name, default)] in the process environment of [env]. *)
Definition getenv_or (env : Env) (name default : string) : string :=
  match environ env name with
  | Some v => v
  | None => default
  end.

(** The program with its log records [l] does what the program [m] does:
    the same calls to the outside world in the same order, and the same
    outcome. *)
Definition refines {A} (l : Logging.L A) (m : M A) : Prop :=
  forall env,
    Logging.events (fst (l env)) = fst (m env) /\ snd (l env) = snd (m env).

(** A computation that only writes log records. *)
Definition silent (l : Logging.L unit) : Prop :=
  forall env, Logging.events (fst (l env)) = [] /\ snd (l env) = Return tt.

(** The steps of a run of the core with its log records, up to and
    including the request, for a file that holds [bytes]. *)
Definition logged_head (name : string -> string) (self : OllamaVisionClient)
    (p user_prompt : string) (bytes : list byte) (request : ChatRequest)
    : list Logging.Step :=
  [ Logging.Ext (EvExists p); Logging.Ext (EvImageVerify p);
    Logging.Ext (EvReadFile p);
    Logging.Log "OllamaVisionClient" Logging.DEBUG
      ("Encoded image: " ++ name p ++ " ("
       ++ Logging.str_of_nat (String.length (b64encode bytes)) ++ " bytes)");
    Logging.Log "OllamaVisionClient" Logging.INFO
      "Analyzing image with Ollama Cloud";
    Logging.Log "OllamaVisionClient" Logging.INFO ("Model: " ++ model self);
    Logging.Log "OllamaVisionClient" Logging.INFO ("Prompt: " ++ user_prompt);
    Logging.Ext (EvChatCreate request) ].

(** The records the tool writes before it looks at the path. *)
Definition tool_intro (p : string) (prompt : option string)
    : list Logging.Step :=
  Logging.Log "MCP_Image_Validator" Logging.INFO ("Analyzing image: " ++ p)
  :: match prompt with
     | Some (String c text) =>
         [ Logging.Log "MCP_Image_Validator" Logging.INFO
             ("Custom prompt: " ++ String c text) ]
     | Some EmptyString | None => []
     end.

(* ================================================================= *)
(** ** Executions on the sample inputs                                *)
(* ================================================================= *)

Example b64encode_Man :
  b64encode [x4d; x61; x6e] = "TWFu"
  /\ b64encode [x4d; x61] = "TWE="
  /\ b64encode [x4d] = "TQ==".
Proof. repeat split; reflexivity. Qed.

Example posix_suffix_examples :
  Sample.posix_suffix "t.png" = ".png"
  /\ Sample.posix_suffix "/srv/a.b/PHOTO.JPG" = ".JPG"
  /\ Sample.posix_suffix "archive.tar.gz" = ".gz"
  /\ Sample.posix_suffix ".bashrc" = ""
  /\ Sample.posix_suffix "dir.d/readme" = ""
  /\ Sample.posix_suffix "name." = "".
Proof. repeat split; reflexivity. Qed.

Example describe_image_end_to_end :
  ollama_vision_client.describe_image Sample.posix_suffix Sample.client
    "t.png" None Sample.env_ok
  = ([ EvExists "t.png"; EvImageVerify "t.png"; EvReadFile "t.png";
       EvChatCreate Sample.request ],
     Return "a red square").
Proof. reflexivity. Qed.

(* ================================================================= *)
(** ** Properties                                                     *)
(* ================================================================= *)

Ltac run_monad :=
  unfold describe_image, _validate_image, _encode_image, check_connection,
    server.describe_image, server.describe_image_with, server.translate,
    server.module_init, __init__,
    Path_exists, Path_is_file, Image_open_verify, open_rb_read,
    chat_completions_create, models_list, OpenAI, os_getenv,
    os_getenv_default, float_, int_, index0,
    try_except, bind, perform, ask, ret, raise;
  cbn beta iota.

Lemma supported_extensions_keys :
  dict_keys SUPPORTED_FORMATS = supported_extensions.
Proof. reflexivity. Qed.

Lemma dict_contains_supported ext :
  dict_contains SUPPORTED_FORMATS ext = true <-> In ext supported_extensions.
Proof.
  unfold dict_contains, SUPPORTED_FORMATS, supported_extensions.
  cbn [existsb fst In]. rewrite !orb_true_iff, !String.eqb_eq.
  intuition congruence.
Qed.

Lemma dict_contains_unsupported ext :
  dict_contains SUPPORTED_FORMATS ext = false <-> ~ In ext supported_extensions.
Proof.
  rewrite <- dict_contains_supported.
  destruct (dict_contains SUPPORTED_FORMATS ext); intuition congruence.
Qed.

Lemma unsupported_message_eq ext :
  "Unsupported image format: " ++ ext ++ ". " ++ "Supported formats: "
    ++ join ", " (dict_keys SUPPORTED_FORMATS)
  = unsupported_message ext.
Proof. reflexivity. Qed.

Section Pipeline.

Variable suffix : string -> string.
Variable self : OllamaVisionClient.

(** [_validate_image] stops at the extension check without touching the
    file, and otherwise reports what the decoder says. *)
Lemma validate_image_run file_path env :
  _validate_image suffix file_path env =
  if dict_contains SUPPORTED_FORMATS (lower (suffix file_path)) then
    ([EvImageVerify file_path],
     match pil_verify env file_path with
     | Return u => Return u
     | Raise e =>
         Raise (mkExc ValueError
                  ("Invalid or corrupted image file: " ++ exc_str e))
     end)
  else
    ([], Raise (mkExc ValueError
                  (unsupported_message (lower (suffix file_path))))).
Proof.
  run_monad.
  destruct (dict_contains SUPPORTED_FORMATS (lower (suffix file_path)));
    cbn [negb]; [|reflexivity].
  destruct (pil_verify env file_path); reflexivity.
Qed.

Lemma encode_image_run file_path env :
  _encode_image file_path env =
  ([EvReadFile file_path],
   match fs_read env file_path with
   | Return bytes => Return (b64encode bytes)
   | Raise e =>
       Raise (mkExc OSError ("Failed to read image file: " ++ exc_str e))
   end).
Proof.
  run_monad. destruct (fs_read env file_path); reflexivity.
Qed.

(** The whole of [describe_image] as a decision tree over the answers of
    the environment. *)
Lemma describe_image_run image_path prompt env :
  describe_image suffix self image_path prompt env =
  match fs_exists env image_path with
  | StatError message =>
      ([EvExists image_path], Raise (mkExc OSError message))
  | Answer false =>
      ([EvExists image_path],
       Raise (mkExc FileNotFoundError
                ("Image file not found: " ++ image_path)))
  | Answer true =>
      if dict_contains SUPPORTED_FORMATS (lower (suffix image_path)) then
        match pil_verify env image_path with
        | Raise e =>
            ([EvExists image_path; EvImageVerify image_path],
             Raise (mkExc ValueError
                      ("Invalid or corrupted image file: " ++ exc_str e)))
        | Return _ =>
            match fs_read env image_path with
            | Raise e =>
                ([EvExists image_path; EvImageVerify image_path;
                  EvReadFile image_path],
                 Raise (mkExc OSError
                          ("Failed to read image file: " ++ exc_str e)))
            | Return bytes =>
                let request :=
                  chat_request self (str_or prompt default_prompt)
                    (_get_mime_type suffix image_path) (b64encode bytes) in
                ([EvExists image_path; EvImageVerify image_path;
                  EvReadFile image_path; EvChatCreate request],
                 interpret (api_chat_create env request))
            end
        end
      else
        ([EvExists image_path],
         Raise (mkExc ValueError
                  (unsupported_message (lower (suffix image_path)))))
  end.
Proof.
  unfold describe_image, bind at 1, Path_exists, perform.
  destruct (fs_exists env image_path) as [[|]|message];
    cbn [stat_outcome negb]; try reflexivity.
  unfold bind at 1. rewrite validate_image_run.
  destruct (dict_contains SUPPORTED_FORMATS (lower (suffix image_path)));
    [|reflexivity].
  destruct (pil_verify env image_path) as [[]|e]; [|reflexivity].
  unfold bind at 1. rewrite encode_image_run.
  destruct (fs_read env image_path) as [bytes|e]; [|reflexivity].
  run_monad. unfold default_prompt, interpret.
  destruct (api_chat_create env _) as [[[|[[|c text]|] rest]]|e];
    reflexivity.
Qed.

End Pipeline.

(* ----------------------------------------------------------------- *)
(** *** The order of validation                                       *)
(* ----------------------------------------------------------------- *)




(* ----------------------------------------------------------------- *)
(** *** Empty responses                                               *)
(* ----------------------------------------------------------------- *)

(** [describe_image] never returns the empty string. *)
Lemma describe_image_never_empty
    (suffix : string -> string) (self : OllamaVisionClient)
    (p : string) (prompt : option string) (env : Env) :
  snd (describe_image suffix self p prompt env) <> Return "".
Proof.
  rewrite describe_image_run.
  destruct (fs_exists env p) as [[|]|message]; try discriminate.
  destruct (dict_contains _ _); [|discriminate].
  destruct (pil_verify env p); [|discriminate].
  destruct (fs_read env p) as [bytes|e]; [|discriminate].
  cbv zeta. cbn [snd]. unfold interpret.
  destruct (api_chat_create env _) as [[[|[[|c text]|] rest]]|e];
    cbn [choices]; discriminate.
Qed.

(** C2, as the code has it. When the four checks pass and the provider
    answers with a first choice whose content is absent or the empty
    string, [describe_image] fails and does not return the empty string:
    it raises [RuntimeError] with the message
    "Ollama Cloud API error: Empty response from vision model".  A failure
    of the call to the provider is raised as a [RuntimeError] too, with the
    same prefix followed by the text of the underlying error; the two
    differ only in the text after the prefix. *)
Theorem empty_response_is_api_error
    (suffix : string -> string) (self : OllamaVisionClient)
    (p : string) (prompt : option string) (env : Env) (bytes : list byte) :
  fs_exists env p = Answer true ->
  In (lower (suffix p)) supported_extensions ->
  pil_verify env p = Return tt ->
  fs_read env p = Return bytes ->
  let request :=
    chat_request self (str_or prompt default_prompt)
      (_get_mime_type suffix p) (b64encode bytes) in
  let outcome := snd (describe_image suffix self p prompt env) in
  (forall response rest,
     api_chat_create env request = Return response ->
     choices response = None :: rest \/ choices response = Some "" :: rest ->
     outcome = Raise (mkExc RuntimeError
                        ("Ollama Cloud API error: "
                         ++ "Empty response from vision model")))
  /\ (forall e,
        api_chat_create env request = Raise e ->
        outcome = Raise (mkExc RuntimeError
                           ("Ollama Cloud API error: " ++ exc_str e)))
  /\ outcome <> Return "".
Proof.
  intros Hex Hext Hver Hread request outcome.
  subst outcome. split; [|split].
  - intros response rest Hans Hc.
    rewrite describe_image_run, Hex.
    apply dict_contains_supported in Hext. rewrite Hext, Hver, Hread.
    cbv zeta. cbn [snd]. fold request. rewrite Hans. unfold interpret.
    destruct Hc as [-> | ->]; reflexivity.
  - intros e Hans.
    rewrite describe_image_run, Hex.
    apply dict_contains_supported in Hext. rewrite Hext, Hver, Hread.
    cbv zeta. cbn [snd]. fold request. rewrite Hans. reflexivity.
  - apply describe_image_never_empty.
Qed.

Lemma empty_response_is_api_error_witness :
  snd (describe_image Sample.posix_suffix Sample.client "t.png" None
         Sample.env_no_content)
  = Raise (mkExc RuntimeError
             "Ollama Cloud API error: Empty response from vision model")
  /\ snd (describe_image Sample.posix_suffix Sample.client "t.png" None
            Sample.env_transport_failure)
     = Raise (mkExc RuntimeError
                "Ollama Cloud API error: Empty response from vision model").
Proof.
  split.
  - destruct (empty_response_is_api_error Sample.posix_suffix Sample.client
                "t.png" None Sample.env_no_content Sample.png_bytes
                ltac:(reflexivity) ltac:(vm_compute; tauto)
                ltac:(reflexivity) ltac:(reflexivity))
      as (H & _).
    apply (H (mkChatResponse [None]) []); [reflexivity | left; reflexivity].
  - destruct (empty_response_is_api_error Sample.posix_suffix Sample.client
                "t.png" None Sample.env_transport_failure Sample.png_bytes
                ltac:(reflexivity) ltac:(vm_compute; tauto)
                ltac:(reflexivity) ltac:(reflexivity))
      as (_ & H & _).
    apply (H (mkExc OtherException "Empty response from vision model")).
    reflexivity.
Defined.

(** C2, as stated, fails: a provider that answers with the empty string
    and a call to the provider that fails with the error text
    "Empty response from vision model" give [describe_image] the same
    trace and the same exception, class and message. *)
Lemma empty_response_not_distinct :
  api_chat_create Sample.env_empty_content Sample.request
    = Return (mkChatResponse [Some ""])
  /\ api_chat_create Sample.env_transport_failure Sample.request
     = Raise (mkExc OtherException "Empty response from vision model")
  /\ describe_image Sample.posix_suffix Sample.client "t.png" None
       Sample.env_empty_content
     = describe_image Sample.posix_suffix Sample.client "t.png" None
         Sample.env_transport_failure
  /\ describe_image Sample.posix_suffix Sample.client "t.png" None
       Sample.env_empty_content
     = ([EvExists "t.png"; EvImageVerify "t.png"; EvReadFile "t.png";
         EvChatCreate Sample.request],
        Raise (mkExc RuntimeError
                 "Ollama Cloud API error: Empty response from vision model")).
Proof. repeat split. Qed.

(* ----------------------------------------------------------------- *)
(** *** The credential                                                *)
(* ----------------------------------------------------------------- *)

Lemma init_run (key url name : string) (t : float) (n : Z) (env : Env) :
  __init__ key url name t n env =
  ([], match openai_new env key url with
       | Return _ => Return (mkClient key url name t n)
       | Raise e => Raise e
       end).
Proof.
  run_monad. destruct (openai_new env key url); reflexivity.
Qed.

(** The bootstrap as a decision tree over the process environment. *)
Lemma module_init_run (env : Env) :
  server.module_init env =
  let url := match environ env "OLLAMA_BASE_URL" with
             | Some v => v
             | None => "https://ollama.com/v1"
             end in
  let name := match environ env "VISION_MODEL" with
              | Some v => v
              | None => "qwen3-vl:235b-cloud"
              end in
  match float_of_str env (match environ env "VISION_TEMPERATURE" with
                          | Some v => v
                          | None => "0.2"
                          end) with
  | Raise e => ([], Raise e)
  | Return x =>
      match int_of_str env (match environ env "VISION_MAX_TOKENS" with
                            | Some v => v
                            | None => "1000"
                            end) with
      | Raise e => ([], Raise e)
      | Return n =>
          match environ env "OLLAMA_API_KEY" with
          | None | Some EmptyString =>
              ([], Raise (mkExc ValueError "OLLAMA_API_KEY not set"))
          | Some key =>
              ([], match openai_new env key url with
                   | Return _ => Return (mkClient key url name x n)
                   | Raise e => Raise e
                   end)
          end
      end
  end.
Proof.
  run_monad.
  destruct (float_of_str env _) as [x|e]; [|reflexivity].
  destruct (int_of_str env _) as [n|e]; [|reflexivity].
  cbn beta iota.
  destruct (environ env "OLLAMA_API_KEY") as [[|a key]|];
    cbn [str_is_empty]; try reflexivity.
  destruct (openai_new env _ _); reflexivity.
Qed.

(** C3, as the code has it. The constructor makes no check of its own: it
    fails exactly when the construction of the provider handle fails, and
    otherwise stores the credential it was given.  The check for a
    credential is made by the bootstrap of the server: every client the
    bootstrap constructs holds the non-empty value of [OLLAMA_API_KEY];
    with [OLLAMA_API_KEY] unset or empty the module fails and constructs
    no client.  The failure is [ValueError("OLLAMA_API_KEY not set")] once
    the two numeric settings have parsed; they are parsed before the
    credential is looked at, and when one of them does not parse the
    failure is the error of the parser. *)
Theorem credential_checked_at_bootstrap :
  (forall key url name t n env,
     __init__ key url name t n env =
     ([], match openai_new env key url with
          | Return _ => Return (mkClient key url name t n)
          | Raise e => Raise e
          end))
  /\ (forall env trace c,
        server.module_init env = (trace, Return c) ->
        api_key c <> ""
        /\ environ env "OLLAMA_API_KEY" = Some (api_key c))
  /\ (forall env,
        environ env "OLLAMA_API_KEY" = None
        \/ environ env "OLLAMA_API_KEY" = Some "" ->
        let temperature_str :=
          match environ env "VISION_TEMPERATURE" with
          | Some v => v
          | None => "0.2"
          end in
        let max_tokens_str :=
          match environ env "VISION_MAX_TOKENS" with
          | Some v => v
          | None => "1000"
          end in
        (exists e, snd (server.module_init env) = Raise e)
        /\ (forall x n,
              float_of_str env temperature_str = Return x ->
              int_of_str env max_tokens_str = Return n ->
              snd (server.module_init env)
              = Raise (mkExc ValueError "OLLAMA_API_KEY not set"))
        /\ (forall e,
              float_of_str env temperature_str = Raise e ->
              snd (server.module_init env) = Raise e)
        /\ (forall x e,
              float_of_str env temperature_str = Return x ->
              int_of_str env max_tokens_str = Raise e ->
              snd (server.module_init env) = Raise e)).
Proof.
  split; [exact init_run | split].
  - intros env trace c. rewrite module_init_run. cbv zeta.
    destruct (float_of_str env _) as [x|e]; [|discriminate].
    destruct (int_of_str env _) as [n|e]; [|discriminate].
    destruct (environ env "OLLAMA_API_KEY") as [[|a key]|];
      try discriminate.
    destruct (openai_new env _ _); [|discriminate].
    intros H. injection H as _ <-. cbn [api_key].
    split; [discriminate | reflexivity].
  - intros env Hkey. rewrite module_init_run. cbv zeta.
    repeat apply conj.
    + destruct (float_of_str env _) as [x|e]; [|eexists; reflexivity].
      destruct (int_of_str env _) as [n|e]; [|eexists; reflexivity].
      destruct Hkey as [-> | ->]; eexists; reflexivity.
    + intros x n -> ->. destruct Hkey as [-> | ->]; reflexivity.
    + now intros e ->.
    + now intros x e -> ->.
Qed.

Lemma credential_checked_at_bootstrap_witness :
  (exists trace c,
     server.module_init (Sample.env_with_key (Some "sk-test"))
       = (trace, Return c)
     /\ api_key c <> "")
  /\ snd (server.module_init (Sample.env_with_key None))
     = Raise (mkExc ValueError "OLLAMA_API_KEY not set")
  /\ snd (server.module_init (Sample.env_with_key (Some "")))
     = Raise (mkExc ValueError "OLLAMA_API_KEY not set")
  /\ snd (server.module_init
            (Sample2.with_bad_numbers (Sample.env_with_key None)))
     = Raise (mkExc ValueError "could not convert string to float: '0.2'").
Proof.
  destruct credential_checked_at_bootstrap as (_ & Hset & Hunset).
  repeat apply conj.
  - exists [], (mkClient "sk-test" default_base_url default_model
                  default_temperature default_max_tokens).
    split; [reflexivity|].
    apply (Hset (Sample.env_with_key (Some "sk-test")) []). reflexivity.
  - destruct (Hunset (Sample.env_with_key None)
                ltac:(left; reflexivity)) as (_ & H & _).
    apply (H default_temperature default_max_tokens); reflexivity.
  - destruct (Hunset (Sample.env_with_key (Some ""))
                ltac:(right; reflexivity)) as (_ & H & _).
    apply (H default_temperature default_max_tokens); reflexivity.
  - destruct (Hunset (Sample2.with_bad_numbers (Sample.env_with_key None))
                ltac:(left; reflexivity)) as (_ & _ & H & _).
    apply H. reflexivity.
Defined.

(** C3, as stated, fails: with a release of the OpenAI library that
    accepts an empty key (the releases that reject only an absent key do),
    the constructor accepts the empty credential and the client it returns
    stores it. *)
Lemma init_accepts_empty_credential :
  __init__ "" default_base_url default_model default_temperature
    default_max_tokens Sample.env_ok
  = ([], Return (mkClient "" default_base_url default_model
                   default_temperature default_max_tokens))
  /\ api_key (mkClient "" default_base_url default_model
                default_temperature default_max_tokens) = "".
Proof. split; reflexivity. Qed.

(* ----------------------------------------------------------------- *)
(** *** The extension check and the MIME table                        *)
(* ----------------------------------------------------------------- *)

Lemma str_app_assoc (a b c : string) : (a ++ b) ++ c = a ++ b ++ c.
Proof.
  induction a as [|x a IH]; cbn [append]; [reflexivity|].
  now rewrite IH.
Qed.

(** Whatever stands between the fixed head of the message and the
    enumeration, each supported extension occurs in the message. *)
Lemma unsupported_message_enumerates (ext e : string) :
  In e supported_extensions -> occurs_in e (unsupported_message ext).
Proof.
  unfold supported_extensions, unsupported_message, occurs_in.
  cbn [In].
  set (head := "Unsupported image format: " ++ ext).
  intros [<- | [<- | [<- | [<- | [<- | [<- | []]]]]]].
  - exists (head ++ ". Supported formats: "), ", .jpeg, .png, .gif, .webp, .bmp".
    now rewrite str_app_assoc.
  - exists (head ++ ". Supported formats: .jpg, "), ", .png, .gif, .webp, .bmp".
    now rewrite str_app_assoc.
  - exists (head ++ ". Supported formats: .jpg, .jpeg, "), ", .gif, .webp, .bmp".
    now rewrite str_app_assoc.
  - exists (head ++ ". Supported formats: .jpg, .jpeg, .png, "), ", .webp, .bmp".
    now rewrite str_app_assoc.
  - exists (head ++ ". Supported formats: .jpg, .jpeg, .png, .gif, "), ", .bmp".
    now rewrite str_app_assoc.
  - exists (head ++ ". Supported formats: .jpg, .jpeg, .png, .gif, .webp, "), "".
    now rewrite str_app_assoc.
Qed.

(** C4. For every path whose extension, lower-cased as the code takes it,
    is outside [.jpg .jpeg .png .gif .webp .bmp]: the extension check
    [_validate_image] fails with the unsupported-format [ValueError]
    without touching the file; [describe_image], which runs the extension
    check as its second step, on a path that passed the existence check,
    fails with that same error; and the message of the error, which is
    "Unsupported image format: <ext>. Supported formats: .jpg, .jpeg, .png,
    .gif, .webp, .bmp", contains every supported extension. *)
Theorem unsupported_extension_rejected
    (suffix : string -> string) (self : OllamaVisionClient)
    (p : string) (prompt : option string) (env : Env) :
  let ext := lower (suffix p) in
  ~ In ext supported_extensions ->
  _validate_image suffix p env
    = ([], Raise (mkExc ValueError (unsupported_message ext)))
  /\ (fs_exists env p = Answer true ->
      describe_image suffix self p prompt env
      = ([EvExists p], Raise (mkExc ValueError (unsupported_message ext))))
  /\ unsupported_message ext
     = "Unsupported image format: " ++ ext
       ++ ". Supported formats: .jpg, .jpeg, .png, .gif, .webp, .bmp"
  /\ (forall e, In e (dict_keys SUPPORTED_FORMATS) ->
      occurs_in e (unsupported_message ext)).
Proof.
  intros ext Hext. pose proof Hext as Hc.
  apply dict_contains_unsupported in Hc. repeat apply conj.
  - rewrite validate_image_run. fold ext. now rewrite Hc.
  - intros Hex. rewrite describe_image_run, Hex. fold ext. now rewrite Hc.
  - reflexivity.
  - intros e He. rewrite supported_extensions_keys in He.
    now apply unsupported_message_enumerates.
Qed.

Lemma unsupported_extension_rejected_witness :
  _validate_image Sample.posix_suffix "notes.txt" Sample.env_ok
    = ([], Raise (mkExc ValueError
                    ("Unsupported image format: .txt. Supported formats: "
                     ++ ".jpg, .jpeg, .png, .gif, .webp, .bmp")))
  /\ describe_image Sample.posix_suffix Sample.client "notes.txt" None
       Sample.env_ok
     = ([EvExists "notes.txt"],
        Raise (mkExc ValueError
                 ("Unsupported image format: .txt. Supported formats: "
                  ++ ".jpg, .jpeg, .png, .gif, .webp, .bmp")))
  /\ occurs_in ".webp" (unsupported_message ".txt").
Proof.
  destruct (unsupported_extension_rejected Sample.posix_suffix Sample.client
              "notes.txt" None Sample.env_ok
              ltac:(vm_compute; intuition discriminate))
    as (Hcheck & Hcall & _ & Hlist).
  split; [exact Hcheck | split].
  - apply Hcall. reflexivity.
  - apply Hlist. vm_compute. tauto.
Defined.

(** C5. The MIME type of a path is looked up from its extension,
    lower-cased as the code takes it, in the fixed table: [.jpg] and
    [.jpeg] give image/jpeg, [.png] image/png, [.gif] image/gif, [.webp]
    image/webp, [.bmp] image/bmp; every extension outside the table gives
    image/jpeg. *)
Theorem get_mime_type_table (suffix : string -> string) (p : string) :
  let ext := lower (suffix p) in
  let mime := _get_mime_type suffix p in
  (ext = ".jpg" -> mime = "image/jpeg")
  /\ (ext = ".jpeg" -> mime = "image/jpeg")
  /\ (ext = ".png" -> mime = "image/png")
  /\ (ext = ".gif" -> mime = "image/gif")
  /\ (ext = ".webp" -> mime = "image/webp")
  /\ (ext = ".bmp" -> mime = "image/bmp")
  /\ (~ In ext supported_extensions -> mime = "image/jpeg").
Proof.
  cbv zeta. unfold _get_mime_type.
  repeat apply conj; try (intros ->; reflexivity).
  intros Hext. unfold supported_extensions in Hext. cbn [In] in Hext.
  unfold dict_get, SUPPORTED_FORMATS. cbn [find fst snd].
  repeat match goal with
         | |- context [String.eqb ?k ?x] =>
             destruct (String.eqb_spec k x) as [Heq | _];
             [exfalso; apply Hext; rewrite Heq; tauto |]
         end.
  reflexivity.
Qed.

Lemma get_mime_type_table_witness :
  _get_mime_type Sample.posix_suffix "a.jpg" = "image/jpeg"
  /\ _get_mime_type Sample.posix_suffix "a.jpeg" = "image/jpeg"
  /\ _get_mime_type Sample.posix_suffix "t.png" = "image/png"
  /\ _get_mime_type Sample.posix_suffix "a.gif" = "image/gif"
  /\ _get_mime_type Sample.posix_suffix "a.webp" = "image/webp"
  /\ _get_mime_type Sample.posix_suffix "a.bmp" = "image/bmp"
  /\ _get_mime_type Sample.posix_suffix "notes.txt" = "image/jpeg".
Proof.
  repeat apply conj.
  - destruct (get_mime_type_table Sample.posix_suffix "a.jpg")
      as (H & _).
    apply H. reflexivity.
  - destruct (get_mime_type_table Sample.posix_suffix "a.jpeg")
      as (_ & H & _).
    apply H. reflexivity.
  - destruct (get_mime_type_table Sample.posix_suffix "t.png")
      as (_ & _ & H & _).
    apply H. reflexivity.
  - destruct (get_mime_type_table Sample.posix_suffix "a.gif")
      as (_ & _ & _ & H & _).
    apply H. reflexivity.
  - destruct (get_mime_type_table Sample.posix_suffix "a.webp")
      as (_ & _ & _ & _ & H & _).
    apply H. reflexivity.
  - destruct (get_mime_type_table Sample.posix_suffix "a.bmp")
      as (_ & _ & _ & _ & _ & H & _).
    apply H. reflexivity.
  - destruct (get_mime_type_table Sample.posix_suffix "notes.txt")
      as (_ & _ & _ & _ & _ & _ & H).
    apply H. vm_compute. intuition discriminate.
Defined.

(* ----------------------------------------------------------------- *)
(** *** The outgoing request                                          *)
(* ----------------------------------------------------------------- *)

(** A request appears in the trace of [describe_image] only as its fourth
    and last event, after a successful read. *)
Lemma describe_image_dispatch
    (suffix : string -> string) (self : OllamaVisionClient)
    (p : string) (prompt : option string) (env : Env) (request : ChatRequest) :
  In (EvChatCreate request) (fst (describe_image suffix self p prompt env)) ->
  exists bytes,
    fs_read env p = Return bytes
    /\ request = chat_request self (str_or prompt default_prompt)
                   (_get_mime_type suffix p) (b64encode bytes)
    /\ fst (describe_image suffix self p prompt env)
       = [EvExists p; EvImageVerify p; EvReadFile p; EvChatCreate request].
Proof.
  rewrite describe_image_run.
  destruct (fs_exists env p) as [[|]|message].
  2,3: cbn; intros [H | []]; discriminate H.
  destruct (dict_contains _ _);
    [|cbn; intros [H | []]; discriminate H].
  destruct (pil_verify env p);
    [|cbn; intros [H | [H | []]]; discriminate H].
  destruct (fs_read env p) as [bytes|e];
    [|cbn; intros [H | [H | [H | []]]]; discriminate H].
  cbv zeta. cbn [fst In].
  intros [H | [H | [H | [H | []]]]]; try discriminate H.
  injection H as <-. exists bytes. repeat split.
Qed.

(** C6. Every request [describe_image] dispatches has the configured
    model, temperature and maximum number of tokens, and exactly one
    message, of role user, whose content has exactly two parts: a text part
    with the resolved prompt and an image part with the URI
    "data:<mime type>;base64,<base64 of the file's bytes>"; it is the only
    call to the provider in the run.  A call that passes the four checks
    does dispatch this request. *)
Theorem dispatch_request_shape
    (suffix : string -> string) (self : OllamaVisionClient)
    (p : string) (prompt : option string) (env : Env) :
  let trace := fst (describe_image suffix self p prompt env) in
  (forall request,
     In (EvChatCreate request) trace ->
     exists bytes,
       fs_read env p = Return bytes
       /\ req_model request = model self
       /\ req_messages request
          = [ mkMessage "user"
                [ TextPart (str_or prompt "Describe this image in detail.");
                  ImageUrlPart ("data:" ++ _get_mime_type suffix p
                                ++ ";base64," ++ b64encode bytes) ] ]
       /\ req_temperature request = temperature self
       /\ req_max_tokens request = max_tokens self
       /\ network_calls trace = 1)
  /\ (forall bytes,
        fs_exists env p = Answer true ->
        In (lower (suffix p)) supported_extensions ->
        pil_verify env p = Return tt ->
        fs_read env p = Return bytes ->
        trace = [ EvExists p; EvImageVerify p; EvReadFile p;
                  EvChatCreate
                    (mkChatRequest (model self)
                       [ mkMessage "user"
                           [ TextPart
                               (str_or prompt "Describe this image in detail.");
                             ImageUrlPart
                               ("data:" ++ _get_mime_type suffix p
                                ++ ";base64," ++ b64encode bytes) ] ]
                       (temperature self) (max_tokens self)) ]).
Proof.
  cbv zeta. split.
  - intros request Hin.
    destruct (describe_image_dispatch _ _ _ _ _ _ Hin)
      as (bytes & Hread & -> & Htrace).
    exists bytes. rewrite Htrace. repeat split. exact Hread.
  - intros bytes Hex Hext Hver Hread.
    rewrite describe_image_run, Hex.
    apply dict_contains_supported in Hext.
    now rewrite Hext, Hver, Hread.
Qed.

Lemma dispatch_request_shape_witness :
  fst (describe_image Sample.posix_suffix Sample.client "t.png" None
         Sample.env_ok)
  = [ EvExists "t.png"; EvImageVerify "t.png"; EvReadFile "t.png";
      EvChatCreate Sample.request ]
  /\ req_messages Sample.request
     = [ mkMessage "user"
           [ TextPart "Describe this image in detail.";
             ImageUrlPart "data:image/png;base64,iVBORw0KGgo=" ] ].
Proof.
  destruct (dispatch_request_shape Sample.posix_suffix Sample.client
              "t.png" None Sample.env_ok) as (Honly & Hsent).
  pose proof (Hsent Sample.png_bytes ltac:(reflexivity)
                ltac:(vm_compute; tauto) ltac:(reflexivity)
                ltac:(reflexivity)) as Htrace.
  split; [exact Htrace|].
  destruct (Honly Sample.request) as (bytes & _ & _ & Hmsg & _).
  - rewrite Htrace. cbn. tauto.
  - reflexivity.
Defined.

(** C9. A call with the prompt [None] and a call with the prompt [""] run
    alike, and any request they dispatch carries the text
    "Describe this image in detail."; a request dispatched for a non-empty
    prompt carries that prompt unchanged. *)
Theorem prompt_defaulting
    (suffix : string -> string) (self : OllamaVisionClient)
    (p : string) (env : Env) :
  describe_image suffix self p None env
    = describe_image suffix self p (Some "") env
  /\ (forall prompt request,
        prompt = None \/ prompt = Some "" ->
        In (EvChatCreate request)
           (fst (describe_image suffix self p prompt env)) ->
        exists image_part,
          req_messages request
          = [ mkMessage "user"
                [ TextPart "Describe this image in detail."; image_part ] ])
  /\ (forall text request,
        text <> "" ->
        In (EvChatCreate request)
           (fst (describe_image suffix self p (Some text) env)) ->
        exists image_part,
          req_messages request
          = [ mkMessage "user" [ TextPart text; image_part ] ]).
Proof.
  split; [|split].
  - now rewrite !describe_image_run.
  - intros prompt request Hp Hin.
    destruct (describe_image_dispatch _ _ _ _ _ _ Hin)
      as (bytes & _ & -> & _).
    eexists. destruct Hp as [-> | ->]; reflexivity.
  - intros text request Htext Hin.
    destruct (describe_image_dispatch _ _ _ _ _ _ Hin)
      as (bytes & _ & -> & _).
    eexists. destruct text; [contradiction | reflexivity].
Qed.

Lemma prompt_defaulting_witness :
  In (EvChatCreate Sample.request)
     (fst (describe_image Sample.posix_suffix Sample.client "t.png"
             (Some "") Sample.env_ok))
  /\ (exists image_part,
        req_messages Sample.request
        = [ mkMessage "user"
              [ TextPart "Describe this image in detail."; image_part ] ])
  /\ In (EvChatCreate
           (chat_request Sample.client "What colour is it?" "image/png"
              "iVBORw0KGgo="))
        (fst (describe_image Sample.posix_suffix Sample.client "t.png"
                (Some "What colour is it?") Sample.env_ok))
  /\ (exists image_part,
        req_messages
          (chat_request Sample.client "What colour is it?" "image/png"
             "iVBORw0KGgo=")
        = [ mkMessage "user"
              [ TextPart "What colour is it?"; image_part ] ]).
Proof.
  destruct (prompt_defaulting Sample.posix_suffix Sample.client "t.png"
              Sample.env_ok) as (_ & Hdefault & Hgiven).
  assert (Hin1 : In (EvChatCreate Sample.request)
                   (fst (describe_image Sample.posix_suffix Sample.client
                           "t.png" (Some "") Sample.env_ok)))
    by (do 3 right; left; reflexivity).
  assert (Hin2 : In (EvChatCreate
                       (chat_request Sample.client "What colour is it?"
                          "image/png" "iVBORw0KGgo="))
                   (fst (describe_image Sample.posix_suffix Sample.client
                           "t.png" (Some "What colour is it?")
                           Sample.env_ok)))
    by (do 3 right; left; reflexivity).
  repeat apply conj.
  - exact Hin1.
  - exact (Hdefault (Some "") Sample.request (or_intror eq_refl) Hin1).
  - exact Hin2.
  - apply (Hgiven "What colour is it?" _ ltac:(discriminate) Hin2).
Defined.

(* ----------------------------------------------------------------- *)
(** *** The connection check                                          *)
(* ----------------------------------------------------------------- *)

(** C7. [check_connection] returns a pair for every outcome of the call to
    the provider and never raises: [(True, "Connected to <base url>")] when
    the call returns, and [(False, "Cannot connect to Ollama Cloud: <text
    of the error>")] when it raises. *)
Theorem check_connection_never_raises
    (self : OllamaVisionClient) (env : Env) :
  (exists reachable detail,
     check_connection self env = ([EvModelsList], Return (reachable, detail)))
  /\ (forall e, snd (check_connection self env) <> Raise e)
  /\ (forall e,
        api_models_list env = Raise e ->
        snd (check_connection self env)
        = Return (false, "Cannot connect to Ollama Cloud: " ++ exc_str e))
  /\ (api_models_list env = Return tt ->
      snd (check_connection self env)
      = Return (true, "Connected to " ++ base_url self)).
Proof.
  run_monad. destruct (api_models_list env) as [[]|e0].
  - repeat split; try discriminate; eauto.
  - repeat split; try discriminate; eauto.
    now intros e [= ->].
Qed.

Lemma check_connection_never_raises_witness :
  snd (check_connection Sample.client Sample.env_transport_failure)
    = Return (false, "Cannot connect to Ollama Cloud: Connection error.")
  /\ snd (check_connection Sample.client Sample.env_ok)
     = Return (true, "Connected to https://ollama.com/v1").
Proof.
  split.
  - destruct (check_connection_never_raises Sample.client
                Sample.env_transport_failure) as (_ & _ & H & _).
    apply (H (mkExc OtherException "Connection error.")). reflexivity.
  - destruct (check_connection_never_raises Sample.client Sample.env_ok)
      as (_ & _ & _ & H).
    apply H. reflexivity.
Defined.

(* ----------------------------------------------------------------- *)
(** *** The tool boundary                                             *)
(* ----------------------------------------------------------------- *)

Lemma translate_run (e : Exc) (env : Env) :
  server.translate e env
  = ([], Raise (mkExc RuntimeError (translate_prefix e ++ exc_str e))).
Proof.
  unfold server.translate, translate_prefix, isinstance, raise.
  destruct (exc_class e); reflexivity.
Qed.

(** The body of the tool as a decision tree over the answers of the
    environment and the run of the method it delegates to. *)
Lemma describe_image_with_run
    (absolute : string -> string)
    (core : string -> option string -> M string)
    (p : string) (prompt : option string) (env : Env) :
  server.describe_image_with absolute core p prompt env =
  match fs_exists env p with
  | StatError message =>
      ([EvExists p],
       Raise (mkExc RuntimeError ("Error describing image: " ++ message)))
  | Answer false =>
      ([EvExists p],
       Raise (mkExc RuntimeError
                ("File not found: Image file not found: " ++ p)))
  | Answer true =>
      match fs_is_file env p with
      | StatError message =>
          ([EvExists p; EvIsFile p],
           Raise (mkExc RuntimeError ("Error describing image: " ++ message)))
      | Answer false =>
          ([EvExists p; EvIsFile p],
           Raise (mkExc RuntimeError
                    ("Invalid input: Path is not a file: " ++ p)))
      | Answer true =>
          (EvExists p :: EvIsFile p :: fst (core (absolute p) prompt env),
           match snd (core (absolute p) prompt env) with
           | Return description => Return description
           | Raise e =>
               Raise (mkExc RuntimeError (translate_prefix e ++ exc_str e))
           end)
      end
  end.
Proof.
  unfold server.describe_image_with, try_except, bind, Path_exists,
    Path_is_file, perform, ret, raise.
  destruct (fs_exists env p) as [[|]|message]; cbn [stat_outcome negb].
  2,3: rewrite translate_run; reflexivity.
  destruct (fs_is_file env p) as [[|]|message]; cbn [stat_outcome negb].
  2,3: rewrite translate_run; reflexivity.
  destruct (core (absolute p) prompt env) as [t [description|e]]; cbn [fst snd].
  - now rewrite app_nil_r.
  - rewrite translate_run. cbn [app]. now rewrite app_nil_r.
Qed.




(* ----------------------------------------------------------------- *)
(** *** Letter case                                                   *)
(* ----------------------------------------------------------------- *)

Lemma lower_char_of_lower (c : ascii) :
  is_lower c = true ->
  lower_char c = c /\ lower_char (ascii_of_nat (nat_of_ascii c - 32)) = c.
Proof.
  destruct c as [[|] [|] [|] [|] [|] [|] [|] [|]];
    intros H; try discriminate H; split; reflexivity.
Qed.

Lemma lower_char_same_letter (c d : ascii) :
  same_letter c d -> lower_char c = lower_char d.
Proof.
  intros [x | x Hx | x Hx]; [reflexivity | |];
    destruct (lower_char_of_lower x Hx) as (H1 & H2); congruence.
Qed.

(** [lower] does not tell apart strings equal up to letter case. *)
Lemma lower_eq_upto_case (s t : string) :
  eq_upto_case s t -> lower s = lower t.
Proof.
  induction 1 as [|c d s t Hcd _ IH]; [reflexivity|].
  cbn [lower]. f_equal; [now apply lower_char_same_letter | exact IH].
Qed.

Lemma lower_supported (e : string) :
  In e supported_extensions -> lower e = e.
Proof.
  unfold supported_extensions. cbn [In].
  intros [<- | [<- | [<- | [<- | [<- | [<- | []]]]]]]; reflexivity.
Qed.

(** C10. For every path whose extension equals a supported extension [e]
    up to letter case, the extension check accepts the path: the check goes
    on to the decoder and its only failure is the decoder's; and the MIME
    type is the one the table gives for [e], the same as for any path whose
    extension is [e] itself. *)
Theorem extension_case_insensitive
    (suffix : string -> string) (p e : string) :
  In e supported_extensions ->
  eq_upto_case (suffix p) e ->
  dict_contains SUPPORTED_FORMATS (lower (suffix p)) = true
  /\ (forall env,
        _validate_image suffix p env
        = ([EvImageVerify p],
           match pil_verify env p with
           | Return u => Return u
           | Raise x =>
               Raise (mkExc ValueError
                        ("Invalid or corrupted image file: " ++ exc_str x))
           end))
  /\ _get_mime_type suffix p = dict_get SUPPORTED_FORMATS e "image/jpeg"
  /\ (forall q, suffix q = e -> _get_mime_type suffix p = _get_mime_type suffix q).
Proof.
  intros He Hcase.
  assert (Hlow : lower (suffix p) = e).
  { rewrite (lower_eq_upto_case _ _ Hcase). now apply lower_supported. }
  assert (Hc : dict_contains SUPPORTED_FORMATS (lower (suffix p)) = true).
  { rewrite Hlow. now apply dict_contains_supported. }
  repeat apply conj.
  - exact Hc.
  - intros env. now rewrite validate_image_run, Hc.
  - unfold _get_mime_type. now rewrite Hlow.
  - intros q Hq. unfold _get_mime_type.
    now rewrite Hlow, Hq, (lower_supported e He).
Qed.

Lemma extension_case_insensitive_witness :
  eq_upto_case (Sample.posix_suffix "PHOTO.JPG") ".jpg"
  /\ dict_contains SUPPORTED_FORMATS
       (lower (Sample.posix_suffix "PHOTO.JPG")) = true
  /\ _get_mime_type Sample.posix_suffix "PHOTO.JPG" = "image/jpeg"
  /\ eq_upto_case (Sample.posix_suffix "scan.Png") ".png"
  /\ _get_mime_type Sample.posix_suffix "scan.Png"
     = _get_mime_type Sample.posix_suffix "t.png".
Proof.
  assert (H1 : eq_upto_case (Sample.posix_suffix "PHOTO.JPG") ".jpg").
  { change (eq_upto_case ".JPG" ".jpg").
    apply euc_cons; [apply same_letter_refl|].
    apply euc_cons; [exact (same_letter_up "j" eq_refl)|].
    apply euc_cons; [exact (same_letter_up "p" eq_refl)|].
    apply euc_cons; [exact (same_letter_up "g" eq_refl)|].
    apply euc_nil. }
  assert (H2 : eq_upto_case (Sample.posix_suffix "scan.Png") ".png").
  { change (eq_upto_case ".Png" ".png").
    apply euc_cons; [apply same_letter_refl|].
    apply euc_cons; [exact (same_letter_up "p" eq_refl)|].
    apply euc_cons; [apply same_letter_refl|].
    apply euc_cons; [apply same_letter_refl|].
    apply euc_nil. }
  destruct (extension_case_insensitive Sample.posix_suffix "PHOTO.JPG" ".jpg"
              ltac:(vm_compute; tauto) H1) as (Hacc & _ & Hmime & _).
  destruct (extension_case_insensitive Sample.posix_suffix "scan.Png" ".png"
              ltac:(vm_compute; tauto) H2) as (_ & _ & _ & Hsame).
  repeat apply conj.
  - exact H1.
  - exact Hacc.
  - exact Hmime.
  - exact H2.
  - apply Hsame. reflexivity.
Defined.

(* ================================================================= *)
(** ** Further properties                                             *)
(* ================================================================= *)

(* ----------------------------------------------------------------- *)
(** *** The payload of [_encode_image]                                *)
(* ----------------------------------------------------------------- *)

Local Open Scope N_scope.

Lemma b64_value_char (m : N) :
  b64_value (b64_char m) = Some (N.land m 63)
  /\ Ascii.eqb (b64_char m) b64_pad = false.
Proof.
  unfold b64_char.
  assert (H : N.land m 63 < 64).
  { change 63 with (N.ones 6). rewrite N.land_ones.
    apply N.mod_lt. discriminate. }
  remember (N.land m 63) as k eqn:Hk. clear Hk m.
  assert (Hj : k = N.of_nat (N.to_nat k)) by now rewrite N2Nat.id.
  assert (Hlt : (N.to_nat k < 64)%nat) by lia.
  remember (N.to_nat k) as j eqn:E. clear E H. subst k.
  do 64 (destruct j as [|j]; [split; reflexivity|]).
  lia.
Qed.

Lemma testbit_small (n k i : N) :
  n < 2 ^ k -> k <= i -> N.testbit n i = false.
Proof.
  intros Hn Hi. destruct (N.eq_dec n 0) as [-> | Hz].
  - apply N.bits_0.
  - apply N.bits_above_log2.
    apply N.lt_le_trans with k; [|exact Hi].
    apply N.log2_lt_pow2; lia.
Qed.

Lemma testbit_byte (a : byte) (i : N) :
  8 <= i -> N.testbit (Byte.to_N a) i = false.
Proof.
  intros Hi. apply testbit_small with 8; [|exact Hi].
  pose proof (Byte.to_N_bounded a). change (2 ^ 8) with 256. lia.
Qed.

Lemma testbit_mask (n w i : N) :
  N.testbit (N.land n (N.ones w)) i = (N.testbit n i && (i <? w))%bool.
Proof.
  rewrite N.land_spec. f_equal.
  destruct (N.ltb_spec i w).
  - now apply N.ones_spec_low.
  - now apply N.ones_spec_high.
Qed.

Lemma testbit_shiftl (n k i : N) :
  N.testbit (N.shiftl n k) i = ((k <=? i) && N.testbit n (i - k))%bool.
Proof.
  destruct (N.leb_spec k i).
  - now rewrite N.shiftl_spec_high'.
  - now rewrite N.shiftl_spec_low.
Qed.

Ltac bitwise i :=
  apply N.bits_inj; intro i;
  change 63 with (N.ones 6); change 255 with (N.ones 8);
  repeat first
    [ rewrite N.lor_spec | rewrite testbit_mask | rewrite testbit_shiftl
    | rewrite N.shiftr_spec' | rewrite N.bits_0 ].

Ltac cmp :=
  repeat match goal with
         | |- context [N.leb ?a ?b] => destruct (N.leb_spec a b)
         | |- context [N.ltb ?a ?b] => destruct (N.ltb_spec a b)
         end.

(** A 24-bit number is the join of its four 6-bit slices. *)
Lemma b64_join_slices (n : N) :
  n < 2 ^ 24 ->
  b64_join (N.land (N.shiftr n 18) 63) (N.land (N.shiftr n 12) 63)
    (N.land (N.shiftr n 6) 63) (N.land n 63) = n.
Proof.
  intros Hn. unfold b64_join. bitwise i.
  destruct (N.ltb_spec i 24) as [Hi | Hi].
  - cmp; cbn [andb orb]; try lia;
      rewrite ?andb_true_r, ?andb_false_r, ?orb_false_r; cbn [orb];
      try reflexivity; f_equal; lia.
  - rewrite (testbit_small n 24 i Hn Hi).
    rewrite !(testbit_small n 24) by (assumption || lia).
    cmp; reflexivity.
Qed.

Lemma b64_group_bits (a b c : byte) (i : N) :
  N.testbit (b64_group (Byte.to_N a) (Byte.to_N b) (Byte.to_N c)) i
  = if i <? 8 then N.testbit (Byte.to_N c) i
    else if i <? 16 then N.testbit (Byte.to_N b) (i - 8)
    else N.testbit (Byte.to_N a) (i - 16).
Proof.
  unfold b64_group. rewrite !N.lor_spec, !testbit_shiftl.
  cmp; try lia; cbn [andb orb];
    rewrite ?(testbit_byte c i), ?(testbit_byte b (i - 8)) by lia;
    rewrite ?orb_false_r; reflexivity.
Qed.

Lemma b64_group_bound (a b c : byte) :
  b64_group (Byte.to_N a) (Byte.to_N b) (Byte.to_N c) < 2 ^ 24.
Proof.
  pose proof (Byte.to_N_bounded a). pose proof (Byte.to_N_bounded b).
  pose proof (Byte.to_N_bounded c).
  remember (b64_group _ _ _) as n eqn:En.
  destruct (N.lt_ge_cases n (2 ^ 24)) as [Hlt | Hge]; [exact Hlt|].
  exfalso.
  assert (Hz : n <> 0).
  { intros E. rewrite E in Hge. now apply Hge. }
  pose proof (N.bit_log2 n Hz) as Hbit.
  assert (Hlog : 24 <= N.log2 n).
  { apply N.log2_le_pow2; [lia | exact Hge]. }
  pose proof (b64_group_bits a b c (N.log2 n)) as Hb.
  rewrite <- En, Hbit in Hb. revert Hb. cmp; try lia.
  rewrite testbit_byte by lia. discriminate.
Qed.

Lemma land_shiftr_byte (n k : N) (x : byte) :
  (forall i, i < 8 -> N.testbit n (i + k) = N.testbit (Byte.to_N x) i) ->
  N.land (N.shiftr n k) 255 = Byte.to_N x.
Proof.
  intros H. apply N.bits_inj; intro i. change 255 with (N.ones 8).
  rewrite testbit_mask, N.shiftr_spec'.
  destruct (N.ltb_spec i 8) as [Hi | Hi].
  - now rewrite H, andb_true_r.
  - now rewrite andb_false_r, testbit_byte.
Qed.

Lemma byte_at_group (a b c : byte) :
  let n := b64_group (Byte.to_N a) (Byte.to_N b) (Byte.to_N c) in
  byte_at n 16 = a /\ byte_at n 8 = b /\ byte_at n 0 = c.
Proof.
  cbv zeta. unfold byte_at.
  rewrite (land_shiftr_byte _ 16 a), (land_shiftr_byte _ 8 b),
    (land_shiftr_byte _ 0 c), !Byte.of_to_N.
  - repeat split.
  - intros i Hi. rewrite b64_group_bits. cmp; try lia. f_equal; lia.
  - intros i Hi. rewrite b64_group_bits. cmp; try lia. f_equal; lia.
  - intros i Hi. rewrite b64_group_bits. cmp; try lia. f_equal; lia.
Qed.

(** The groups of one and of two bytes are groups of three bytes whose
    missing bytes are zero. *)
Lemma b64_group_1 (a : byte) :
  N.shiftl (Byte.to_N a) 16 = b64_group (Byte.to_N a) (Byte.to_N x00) (Byte.to_N x00).
Proof.
  unfold b64_group. change (Byte.to_N x00) with 0.
  now rewrite N.shiftl_0_l, !N.lor_0_r.
Qed.

Lemma b64_group_2 (a b : byte) :
  N.lor (N.shiftl (Byte.to_N a) 16) (N.shiftl (Byte.to_N b) 8)
  = b64_group (Byte.to_N a) (Byte.to_N b) (Byte.to_N x00).
Proof.
  unfold b64_group. change (Byte.to_N x00) with 0.
  now rewrite N.lor_0_r.
Qed.

Lemma b64_group_low_2 (a b : byte) :
  N.land (b64_group (Byte.to_N a) (Byte.to_N b) (Byte.to_N x00)) 63 = 0.
Proof.
  apply N.bits_inj; intro i. change 63 with (N.ones 6).
  rewrite testbit_mask, b64_group_bits, N.bits_0.
  cmp; try lia; rewrite ?andb_false_r; try reflexivity;
    change (Byte.to_N x00) with 0; now rewrite N.bits_0.
Qed.

Lemma b64_group_low_1 (a : byte) :
  N.land (N.shiftr (b64_group (Byte.to_N a) (Byte.to_N x00)
                      (Byte.to_N x00)) 6) 63 = 0.
Proof.
  apply N.bits_inj; intro i. change 63 with (N.ones 6).
  rewrite testbit_mask, N.shiftr_spec', b64_group_bits, N.bits_0.
  cmp; try lia; rewrite ?andb_false_r; try reflexivity;
    change (Byte.to_N x00) with 0; now rewrite N.bits_0.
Qed.

Lemma b64_join_group_3 (a b c : byte) :
  let n := b64_group (Byte.to_N a) (Byte.to_N b) (Byte.to_N c) in
  b64_join (N.land (N.shiftr n 18) 63) (N.land (N.shiftr n 12) 63)
    (N.land (N.shiftr n 6) 63) (N.land n 63) = n.
Proof. apply b64_join_slices, b64_group_bound. Qed.

Lemma b64_join_group_2 (a b : byte) :
  let n := b64_group (Byte.to_N a) (Byte.to_N b) (Byte.to_N x00) in
  b64_join (N.land (N.shiftr n 18) 63) (N.land (N.shiftr n 12) 63)
    (N.land (N.shiftr n 6) 63) 0 = n.
Proof.
  pose proof (b64_join_group_3 a b x00) as H. cbv zeta in H |- *.
  now rewrite b64_group_low_2 in H.
Qed.

Lemma b64_join_group_1 (a : byte) :
  let n := b64_group (Byte.to_N a) (Byte.to_N x00) (Byte.to_N x00) in
  b64_join (N.land (N.shiftr n 18) 63) (N.land (N.shiftr n 12) 63) 0 0 = n.
Proof.
  pose proof (b64_join_group_2 a x00) as H. cbv zeta in H |- *.
  now rewrite b64_group_low_1 in H.
Qed.

Lemma list_ind3 {A} (P : list A -> Prop) :
  P [] -> (forall a, P [a]) -> (forall a b, P [a; b]) ->
  (forall a b c l, P l -> P (a :: b :: c :: l)) ->
  forall l, P l.
Proof.
  intros H0 H1 H2 H3 l.
  assert (H : P l /\ (forall a, P (a :: l)) /\ (forall a b, P (a :: b :: l))).
  { induction l as [|x l IH].
    - repeat split; auto.
    - destruct IH as (IH0 & IH1 & IH2). repeat split; auto. }
  apply H.
Qed.

Local Close Scope N_scope.

Theorem b64decode_b64encode (bytes : list byte) :
  b64decode (b64encode bytes) = Some bytes.
Proof.
  induction bytes as [|a|a b|a b c rest IH] using list_ind3.
  - reflexivity.
  - cbn [b64encode]. cbv zeta. rewrite b64_group_1.
    cbn [b64decode].
    destruct (b64_value_char (N.shiftr (b64_group (Byte.to_N a) (Byte.to_N x00) (Byte.to_N x00)) 18)) as (-> & _).
    destruct (b64_value_char (N.shiftr (b64_group (Byte.to_N a) (Byte.to_N x00) (Byte.to_N x00)) 12)) as (-> & _).
    change (Ascii.eqb b64_pad b64_pad) with true. cbn iota.
    rewrite (b64_join_group_1 a).
    now destruct (byte_at_group a x00 x00) as (-> & _).
  - cbn [b64encode]. cbv zeta. rewrite b64_group_2.
    cbn [b64decode].
    destruct (b64_value_char (N.shiftr (b64_group (Byte.to_N a) (Byte.to_N b) (Byte.to_N x00)) 18)) as (-> & _).
    destruct (b64_value_char (N.shiftr (b64_group (Byte.to_N a) (Byte.to_N b) (Byte.to_N x00)) 12)) as (-> & _).
    destruct (b64_value_char (N.shiftr (b64_group (Byte.to_N a) (Byte.to_N b) (Byte.to_N x00)) 6)) as (-> & ->).
    change (Ascii.eqb b64_pad b64_pad) with true. cbn iota.
    rewrite (b64_join_group_2 a b).
    now destruct (byte_at_group a b x00) as (-> & -> & _).
  - cbn [b64encode]. cbv zeta.
    fold (b64_group (Byte.to_N a) (Byte.to_N b) (Byte.to_N c)).
    cbn [b64decode].
    destruct (b64_value_char (N.shiftr (b64_group (Byte.to_N a) (Byte.to_N b) (Byte.to_N c)) 18)) as (-> & _).
    destruct (b64_value_char (N.shiftr (b64_group (Byte.to_N a) (Byte.to_N b) (Byte.to_N c)) 12)) as (-> & _).
    destruct (b64_value_char (N.shiftr (b64_group (Byte.to_N a) (Byte.to_N b) (Byte.to_N c)) 6)) as (-> & _).
    destruct (b64_value_char (b64_group (Byte.to_N a) (Byte.to_N b) (Byte.to_N c))) as (-> & ->).
    rewrite IH, (b64_join_group_3 a b c).
    now destruct (byte_at_group a b c) as (-> & -> & ->).
Qed.

Corollary b64encode_injective (xs ys : list byte) :
  b64encode xs = b64encode ys -> xs = ys.
Proof.
  intros H. apply (f_equal b64decode) in H.
  rewrite !b64decode_b64encode in H. now injection H.
Qed.

Lemma b64encode_length (bytes : list byte) :
  String.length (b64encode bytes) = 4 * ((List.length bytes + 2) / 3).
Proof.
  induction bytes as [|a|a b|a b c rest IH] using list_ind3;
    try reflexivity.
  cbn [b64encode String.length List.length]. rewrite IH.
  replace (S (S (S (List.length rest))) + 2)
    with ((List.length rest + 2) + 1 * 3) by lia.
  rewrite Nat.div_add by discriminate. lia.
Qed.

Lemma b64_char_symbol (m : N) : is_b64_symbol (b64_char m) = true.
Proof.
  unfold b64_char.
  assert (H : (N.land m 63 < 64)%N).
  { change 63%N with (N.ones 6). rewrite N.land_ones.
    apply N.mod_lt. discriminate. }
  remember (N.land m 63) as k eqn:Hk. clear Hk m.
  assert (Hj : k = N.of_nat (N.to_nat k)) by now rewrite N2Nat.id.
  assert (Hlt : N.to_nat k < 64) by lia.
  remember (N.to_nat k) as j eqn:E. clear E H. subst k.
  do 64 (destruct j as [|j]; [reflexivity|]).
  lia.
Qed.

Lemma b64encode_symbols (bytes : list byte) :
  forallb is_b64_symbol (list_ascii_of_string (b64encode bytes)) = true.
Proof.
  induction bytes as [|a|a b|a b c rest IH] using list_ind3.
  - reflexivity.
  - cbn [b64encode list_ascii_of_string forallb].
    now rewrite !b64_char_symbol.
  - cbn [b64encode list_ascii_of_string forallb].
    now rewrite !b64_char_symbol.
  - cbn [b64encode list_ascii_of_string forallb].
    now rewrite !b64_char_symbol, IH.
Qed.

(** X1. When the file can be read, [_encode_image] makes the single read
    and returns a payload that decodes back to exactly the bytes of the
    file. *)
Theorem encode_image_round_trip (p : string) (env : Env) (bytes : list byte) :
  fs_read env p = Return bytes ->
  exists payload,
    _encode_image p env = ([EvReadFile p], Return payload)
    /\ b64decode payload = Some bytes.
Proof.
  intros Hread. exists (b64encode bytes). split.
  - now rewrite encode_image_run, Hread.
  - apply b64decode_b64encode.
Qed.

Lemma encode_image_round_trip_witness :
  exists payload,
    _encode_image "t.png" Sample.env_ok
      = ([EvReadFile "t.png"], Return payload)
    /\ b64decode payload = Some Sample.png_bytes.
Proof.
  apply (encode_image_round_trip "t.png" Sample.env_ok Sample.png_bytes).
  reflexivity.
Defined.

(** X2. Every payload [_encode_image] returns is the encoding of the bytes
    read: its length is four characters for every three bytes, rounded up,
    and it is made of the 64 characters of the base64 alphabet and the
    padding character only. *)
Theorem encode_image_payload_shape (p : string) (env : Env) (payload : string) :
  snd (_encode_image p env) = Return payload ->
  exists bytes,
    fs_read env p = Return bytes
    /\ String.length payload = 4 * ((List.length bytes + 2) / 3)
    /\ forallb is_b64_symbol (list_ascii_of_string payload) = true.
Proof.
  rewrite encode_image_run. cbn [snd].
  destruct (fs_read env p) as [bytes|e]; [|discriminate].
  intros [= <-]. exists bytes. repeat split.
  - apply b64encode_length.
  - apply b64encode_symbols.
Qed.

Lemma encode_image_payload_shape_witness :
  exists bytes,
    fs_read Sample.env_ok "t.png" = Return bytes
    /\ String.length "iVBORw0KGgo=" = 4 * ((List.length bytes + 2) / 3)
    /\ forallb is_b64_symbol (list_ascii_of_string "iVBORw0KGgo=") = true.
Proof.
  apply (encode_image_payload_shape "t.png" Sample.env_ok "iVBORw0KGgo=").
  reflexivity.
Defined.

(* ----------------------------------------------------------------- *)
(** *** The MIME type                                                 *)
(* ----------------------------------------------------------------- *)

Lemma dict_get_cases (d : dict) (k default : string) :
  (dict_contains d k = true /\ In (k, dict_get d k default) d)
  \/ (dict_contains d k = false /\ dict_get d k default = default).
Proof.
  unfold dict_get, dict_contains.
  induction d as [|[k0 v0] d IH]; [right; split; reflexivity|].
  cbn [find existsb fst snd].
  destruct (String.eqb_spec k0 k) as [-> | Hne]; cbn [orb].
  - left. split; [reflexivity | left; reflexivity].
  - destruct IH as [(Hc & Hin) | (Hc & Hd)].
    + left. split; [exact Hc | right; exact Hin].
    + right. split; assumption.
Qed.

(** Whatever the path, [_get_mime_type] returns one of the five MIME types
    of the table. *)
Lemma get_mime_type_in_types (suffix : string -> string) (p : string) :
  In (_get_mime_type suffix p) mime_types.
Proof.
  unfold _get_mime_type.
  destruct (dict_get_cases SUPPORTED_FORMATS (lower (suffix p)) "image/jpeg")
    as [(_ & Hin) | (_ & ->)]; [|left; reflexivity].
  revert Hin. generalize (dict_get SUPPORTED_FORMATS (lower (suffix p))
                            "image/jpeg").
  intros mime Hin. unfold SUPPORTED_FORMATS in Hin. cbn [In] in Hin.
  unfold mime_types. cbn [In].
  repeat match goal with
         | H : _ \/ _ |- _ => destruct H as [H | H]
         | H : (_, _) = (_, _) |- _ => injection H as _ <-
         end; tauto.
Qed.

(** The MIME type and the payload can be read back from a data URI. *)
Lemma data_uri_inj (m1 m2 x1 x2 : string) :
  In m1 mime_types -> In m2 mime_types ->
  "data:" ++ m1 ++ ";base64," ++ x1 = "data:" ++ m2 ++ ";base64," ++ x2 ->
  m1 = m2 /\ x1 = x2.
Proof.
  unfold mime_types. cbn [In].
  intros [<- | [<- | [<- | [<- | [<- | []]]]]]
         [<- | [<- | [<- | [<- | [<- | []]]]]] H;
    cbn [append] in H; try discriminate H;
    injection H as ->; split; reflexivity.
Qed.

(* ----------------------------------------------------------------- *)
(** *** Runs of [describe_image]                                      *)
(* ----------------------------------------------------------------- *)

(** A request in the trace means that the four checks passed. *)
Lemma describe_image_dispatch_checks
    (suffix : string -> string) (self : OllamaVisionClient)
    (p : string) (prompt : option string) (env : Env) (request : ChatRequest) :
  In (EvChatCreate request) (fst (describe_image suffix self p prompt env)) ->
  fs_exists env p = Answer true
  /\ dict_contains SUPPORTED_FORMATS (lower (suffix p)) = true
  /\ pil_verify env p = Return tt
  /\ exists bytes,
       fs_read env p = Return bytes
       /\ request = chat_request self (str_or prompt default_prompt)
                      (_get_mime_type suffix p) (b64encode bytes).
Proof.
  rewrite describe_image_run.
  destruct (fs_exists env p) as [[|]|message].
  2,3: cbn; intros [H | []]; discriminate H.
  destruct (dict_contains _ _);
    [|cbn; intros [H | []]; discriminate H].
  destruct (pil_verify env p) as [[]|e];
    [|cbn; intros [H | [H | []]]; discriminate H].
  destruct (fs_read env p) as [bytes|e];
    [|cbn; intros [H | [H | [H | []]]]; discriminate H].
  cbv zeta. cbn [fst In].
  intros [H | [H | [H | [H | []]]]]; try discriminate H.
  injection H as <-. repeat split. now exists bytes.
Qed.

(** X3. The trace of every run of [describe_image] on [p] is a non-empty
    initial part of: stat of [p], decoding of [p], read of [p], one call of
    [chat.completions.create].  So the function calls the provider's
    client at most once, as its last step, and does not call it again
    after a failure; it reads the file at most twice and touches no path
    but [p]; a run that returns a description has made all four steps. *)
Theorem describe_image_trace_prefix
    (suffix : string -> string) (self : OllamaVisionClient)
    (p : string) (prompt : option string) (env : Env) :
  let run := describe_image suffix self p prompt env in
  exists request k,
    1 <= k <= 4
    /\ fst run = firstn k (full_trace p request)
    /\ file_reads (fst run) <= 2
    /\ (forall text, snd run = Return text -> k = 4).
Proof.
  cbv zeta. rewrite describe_image_run.
  set (dummy := chat_request self "" "" "").
  destruct (fs_exists env p) as [[|]|message].
  2,3: exists dummy, 1; repeat split; cbn; try lia; discriminate.
  destruct (dict_contains _ _);
    [|exists dummy, 1; repeat split; cbn; try lia; discriminate].
  destruct (pil_verify env p) as [[]|e];
    [|exists dummy, 2; repeat split; cbn; try lia; discriminate].
  destruct (fs_read env p) as [bytes|e];
    [|exists dummy, 3; repeat split; cbn; try lia; discriminate].
  cbv zeta. eexists. exists 4. repeat split; cbn; lia.
Qed.

Lemma describe_image_trace_prefix_witness :
  exists request k,
    1 <= k <= 4
    /\ fst (describe_image Sample.posix_suffix Sample.client "t.png" None
              Sample.env_ok)
       = firstn k (full_trace "t.png" request)
    /\ file_reads
         (fst (describe_image Sample.posix_suffix Sample.client "t.png" None
                 Sample.env_ok)) <= 2
    /\ k = 4.
Proof.
  destruct (describe_image_trace_prefix Sample.posix_suffix Sample.client
              "t.png" None Sample.env_ok)
    as (request & k & Hk & Htrace & Hreads & Hfull).
  exists request, k. repeat split; try assumption; try apply Hk.
  apply (Hfull "a red square"). reflexivity.
Defined.

(** X4. [describe_image] returns [text] exactly when the path exists, its
    extension is supported, the decoder accepts the file, the read
    succeeds, and the provider answers the request with a list of choices
    whose first content is [text], not empty; the other choices play no
    part. *)
Theorem describe_image_success_iff
    (suffix : string -> string) (self : OllamaVisionClient)
    (p : string) (prompt : option string) (env : Env) (text : string) :
  snd (describe_image suffix self p prompt env) = Return text
  <->
  (fs_exists env p = Answer true
   /\ In (lower (suffix p)) supported_extensions
   /\ pil_verify env p = Return tt
   /\ text <> ""
   /\ exists bytes response rest,
        fs_read env p = Return bytes
        /\ api_chat_create env
             (chat_request self (str_or prompt "Describe this image in detail.")
                (_get_mime_type suffix p) (b64encode bytes))
           = Return response
        /\ choices response = Some text :: rest).
Proof.
  rewrite describe_image_run, <- dict_contains_supported. split.
  - destruct (fs_exists env p) as [[|]|message]; try discriminate.
    destruct (dict_contains _ _); [|discriminate].
    destruct (pil_verify env p) as [[]|e]; [|discriminate].
    destruct (fs_read env p) as [bytes|e]; [|discriminate].
    cbv zeta. cbn [snd]. unfold interpret, default_prompt.
    destruct (api_chat_create env _) as [[[|[[|c t]|] rest]]|e] eqn:Hans;
      cbn [choices]; try discriminate.
    intros [= <-]. repeat split; try discriminate.
    exists bytes, (mkChatResponse (Some (String c t) :: rest)), rest.
    repeat split. exact Hans.
  - intros (-> & -> & -> & Htext & bytes & response & rest & -> & Hans & Hc).
    cbv zeta. cbn [snd]. unfold default_prompt. rewrite Hans.
    unfold interpret. rewrite Hc.
    destruct text; [contradiction | reflexivity].
Qed.

Lemma describe_image_success_iff_witness :
  snd (describe_image Sample.posix_suffix Sample.client "t.png" None
         Sample.env_ok) = Return "a red square".
Proof.
  apply (describe_image_success_iff Sample.posix_suffix Sample.client
           "t.png" None Sample.env_ok "a red square").
  repeat split; try reflexivity.
  - vm_compute. tauto.
  - discriminate.
  - exists Sample.png_bytes, (mkChatResponse [Some "a red square"]), [].
    repeat split.
Defined.




(** X6. Whatever the path, [_get_mime_type] returns one of the five MIME
    types of the table; and the MIME type of every request
    [describe_image] sends is the entry of the table for the extension of
    the path: the fallback of [_get_mime_type] for an extension outside
    the table never reaches a request. *)
Theorem dispatched_mime_from_table
    (suffix : string -> string) (self : OllamaVisionClient)
    (p : string) (prompt : option string) (env : Env) :
  In (_get_mime_type suffix p) mime_types
  /\ forall request,
       In (EvChatCreate request)
          (fst (describe_image suffix self p prompt env)) ->
       exists mime text payload,
         In (lower (suffix p), mime) SUPPORTED_FORMATS
         /\ req_messages request
            = [ mkMessage "user"
                  [ TextPart text;
                    ImageUrlPart ("data:" ++ mime ++ ";base64," ++ payload) ] ].
Proof.
  split; [apply get_mime_type_in_types|].
  intros request Hin.
  destruct (describe_image_dispatch_checks _ _ _ _ _ _ Hin)
    as (_ & Hc & _ & bytes & _ & ->).
  exists (_get_mime_type suffix p), (str_or prompt default_prompt),
    (b64encode bytes).
  split; [|reflexivity].
  unfold _get_mime_type.
  destruct (dict_get_cases SUPPORTED_FORMATS (lower (suffix p)) "image/jpeg")
    as [(_ & H) | (H & _)]; [exact H | congruence].
Qed.

Lemma dispatched_mime_from_table_witness :
  exists mime text payload,
    In (lower (Sample.posix_suffix "PHOTO.JPG"), mime) SUPPORTED_FORMATS
    /\ req_messages
         (chat_request Sample.client default_prompt "image/jpeg"
            "iVBORw0KGgo=")
       = [ mkMessage "user"
             [ TextPart text;
               ImageUrlPart ("data:" ++ mime ++ ";base64," ++ payload) ] ].
Proof.
  destruct (dispatched_mime_from_table Sample.posix_suffix Sample.client
              "PHOTO.JPG" None Sample.env_ok) as (_ & H).
  apply H. do 3 right. left. reflexivity.
Defined.

(** X7. Two requests sent by [describe_image] are equal only if they carry
    the same prompt, the same MIME type and the bytes of the same file
    content: the request determines the image. *)
Theorem request_determines_image
    (suffix : string -> string) (self : OllamaVisionClient)
    (p1 p2 : string) (prompt1 prompt2 : option string) (env1 env2 : Env)
    (request : ChatRequest) :
  In (EvChatCreate request)
     (fst (describe_image suffix self p1 prompt1 env1)) ->
  In (EvChatCreate request)
     (fst (describe_image suffix self p2 prompt2 env2)) ->
  fs_read env1 p1 = fs_read env2 p2
  /\ _get_mime_type suffix p1 = _get_mime_type suffix p2
  /\ str_or prompt1 "Describe this image in detail."
     = str_or prompt2 "Describe this image in detail.".
Proof.
  intros H1 H2.
  destruct (describe_image_dispatch_checks _ _ _ _ _ _ H1)
    as (_ & _ & _ & bytes1 & Hr1 & E1).
  destruct (describe_image_dispatch_checks _ _ _ _ _ _ H2)
    as (_ & _ & _ & bytes2 & Hr2 & E2).
  rewrite E1 in E2. unfold chat_request, default_prompt in E2.
  injection E2 as Hprompt Huri.
  destruct (data_uri_inj (_get_mime_type suffix p1) (_get_mime_type suffix p2)
              (b64encode bytes1) (b64encode bytes2)
              (get_mime_type_in_types suffix p1) (get_mime_type_in_types suffix p2)
              (f_equal (append "data:") Huri))
    as (Hmime & Hpayload).
  apply b64encode_injective in Hpayload. subst bytes2.
  repeat split; congruence.
Qed.

Lemma request_determines_image_witness :
  fs_read Sample.env_ok "t.png" = fs_read Sample.env_empty_content "t.png"
  /\ _get_mime_type Sample.posix_suffix "t.png"
     = _get_mime_type Sample.posix_suffix "t.png"
  /\ str_or None "Describe this image in detail."
     = str_or (Some "") "Describe this image in detail.".
Proof.
  apply (request_determines_image Sample.posix_suffix Sample.client
           "t.png" "t.png" None (Some "") Sample.env_ok
           Sample.env_empty_content Sample.request);
    do 3 right; left; reflexivity.
Defined.

(** X8. Two paths whose extensions differ only by the case of the letters
    A-Z are treated alike by the extension check and by the MIME lookup,
    whether the extension is supported or not: the membership test gives
    the same verdict, the MIME type is the same, and when the extension is
    not supported [_validate_image] ends with the same outcome on both. *)
Theorem extension_case_irrelevant
    (suffix : string -> string) (p q : string) :
  eq_upto_case (suffix p) (suffix q) ->
  dict_contains SUPPORTED_FORMATS (lower (suffix p))
    = dict_contains SUPPORTED_FORMATS (lower (suffix q))
  /\ _get_mime_type suffix p = _get_mime_type suffix q
  /\ (forall env,
        ~ In (lower (suffix p)) supported_extensions ->
        snd (_validate_image suffix p env)
        = snd (_validate_image suffix q env)).
Proof.
  intros Hcase. apply lower_eq_upto_case in Hcase.
  unfold _get_mime_type. rewrite Hcase. repeat split.
  intros env Hext. rewrite !validate_image_run, Hcase.
  apply dict_contains_unsupported in Hext. now rewrite Hext.
Qed.

Lemma extension_case_irrelevant_witness :
  snd (_validate_image Sample.posix_suffix "NOTES.Txt" Sample.env_ok)
  = Raise (mkExc ValueError (unsupported_message ".txt")).
Proof.
  assert (Hcase : eq_upto_case (Sample.posix_suffix "NOTES.Txt")
                    (Sample.posix_suffix "notes.txt")).
  { change (eq_upto_case ".Txt" ".txt").
    apply euc_cons; [apply same_letter_refl|].
    apply euc_cons; [exact (same_letter_up "t" eq_refl)|].
    apply euc_cons; [apply same_letter_refl|].
    apply euc_cons; [apply same_letter_refl|].
    apply euc_nil. }
  destruct (extension_case_irrelevant Sample.posix_suffix "NOTES.Txt"
              "notes.txt" Hcase) as (_ & _ & H).
  rewrite (H Sample.env_ok ltac:(vm_compute; intuition discriminate)).
  reflexivity.
Defined.

(* ----------------------------------------------------------------- *)
(** *** The answer of the provider                                    *)
(* ----------------------------------------------------------------- *)

(** X9. How [describe_image] reads an answer, the four checks having
    passed: an answer without any choice fails with
    [RuntimeError("Ollama Cloud API error: list index out of range")]; an
    answer with several choices is read by its first choice alone, the
    outcome being what it is when that choice is the only one. *)
Theorem answer_read_by_first_choice
    (suffix : string -> string) (self : OllamaVisionClient)
    (p : string) (prompt : option string) (env : Env) (bytes : list byte) :
  let request :=
    chat_request self (str_or prompt "Describe this image in detail.")
      (_get_mime_type suffix p) (b64encode bytes) in
  let outcome := snd (describe_image suffix self p prompt env) in
  fs_exists env p = Answer true ->
  In (lower (suffix p)) supported_extensions ->
  pil_verify env p = Return tt ->
  fs_read env p = Return bytes ->
  (api_chat_create env request = Return (mkChatResponse []) ->
   outcome = Raise (mkExc RuntimeError
                      "Ollama Cloud API error: list index out of range"))
  /\ (forall first rest,
        api_chat_create env request = Return (mkChatResponse (first :: rest)) ->
        outcome = interpret (Return (mkChatResponse [first]))).
Proof.
  cbv zeta. intros Hex Hext Hver Hread.
  apply dict_contains_supported in Hext.
  rewrite describe_image_run, Hex, Hext, Hver, Hread.
  cbv zeta. cbn [snd]. unfold default_prompt. split.
  - now intros ->.
  - intros first rest ->. unfold interpret. cbn [choices].
    now destruct first as [[|c text]|].
Qed.

Lemma answer_read_by_first_choice_witness :
  snd (describe_image Sample.posix_suffix Sample.client "t.png" None
         Sample2.env_no_choices)
  = Raise (mkExc RuntimeError
             "Ollama Cloud API error: list index out of range")
  /\ snd (describe_image Sample.posix_suffix Sample.client "t.png" None
            Sample2.env_two_choices)
     = Return "first".
Proof.
  split.
  - destruct (answer_read_by_first_choice Sample.posix_suffix Sample.client
                "t.png" None Sample2.env_no_choices Sample.png_bytes
                ltac:(reflexivity) ltac:(vm_compute; tauto)
                ltac:(reflexivity) ltac:(reflexivity)) as (H & _).
    apply H. reflexivity.
  - destruct (answer_read_by_first_choice Sample.posix_suffix Sample.client
                "t.png" None Sample2.env_two_choices Sample.png_bytes
                ltac:(reflexivity) ltac:(vm_compute; tauto)
                ltac:(reflexivity) ltac:(reflexivity)) as (_ & H).
    apply (H (Some "first") [Some "second"]). reflexivity.
Defined.

(* ----------------------------------------------------------------- *)
(** *** The bootstrap of the server                                   *)
(* ----------------------------------------------------------------- *)

(** X10. The bootstrap constructs a client exactly when [OLLAMA_API_KEY]
    is set and not empty, both numeric settings parse and the provider
    handle can be built.  The client then holds the key, the parsed
    numbers, and for the base URL and the model the value of
    [OLLAMA_BASE_URL] and [VISION_MODEL] when set, even to the empty
    string, and otherwise the defaults of the constructor. *)
Theorem module_init_success_iff (env : Env) (trace : Trace)
    (c : OllamaVisionClient) :
  server.module_init env = (trace, Return c)
  <->
  (trace = []
   /\ environ env "OLLAMA_API_KEY" = Some (api_key c)
   /\ api_key c <> ""
   /\ base_url c = getenv_or env "OLLAMA_BASE_URL" default_base_url
   /\ model c = getenv_or env "VISION_MODEL" default_model
   /\ float_of_str env (getenv_or env "VISION_TEMPERATURE" "0.2")
      = Return (temperature c)
   /\ int_of_str env (getenv_or env "VISION_MAX_TOKENS" "1000")
      = Return (max_tokens c)
   /\ openai_new env (api_key c) (base_url c) = Return tt).
Proof.
  rewrite module_init_run. cbv zeta.
  unfold getenv_or, default_base_url, default_model. split.
  - destruct (float_of_str env _) as [x|e]; [|discriminate].
    destruct (int_of_str env _) as [n|e]; [|discriminate].
    destruct (environ env "OLLAMA_API_KEY") as [[|a key]|];
      try discriminate.
    destruct (openai_new env _ _) as [[]|e] eqn:Hnew; [|discriminate].
    intros [= <- <-]. cbn [api_key base_url model temperature max_tokens].
    repeat split; try reflexivity; try discriminate. exact Hnew.
  - destruct c as [key url name x n].
    cbn [api_key base_url model temperature max_tokens].
    intros (-> & -> & Hkey & -> & -> & -> & -> & Hnew).
    destruct key; [contradiction|]. now rewrite Hnew.
Qed.

Lemma module_init_success_iff_witness :
  server.module_init (Sample.env_with_key (Some "sk-test"))
  = ([], Return (mkClient "sk-test" "https://ollama.com/v1"
                   "qwen3-vl:235b-cloud" default_temperature 1000)).
Proof.
  apply (module_init_success_iff (Sample.env_with_key (Some "sk-test")) []
           (mkClient "sk-test" "https://ollama.com/v1" "qwen3-vl:235b-cloud"
              default_temperature 1000)).
  repeat split. discriminate.
Defined.

(** X11. The numeric settings are parsed before the credential is looked
    at: when [VISION_TEMPERATURE] does not parse, or parses and
    [VISION_MAX_TOKENS] does not, the bootstrap fails with the error of
    the parser, whether or not [OLLAMA_API_KEY] is set. *)
Theorem module_init_numbers_first (env : Env) (e : Exc) :
  (float_of_str env (getenv_or env "VISION_TEMPERATURE" "0.2") = Raise e ->
   server.module_init env = ([], Raise e))
  /\ (forall x,
        float_of_str env (getenv_or env "VISION_TEMPERATURE" "0.2") = Return x ->
        int_of_str env (getenv_or env "VISION_MAX_TOKENS" "1000") = Raise e ->
        server.module_init env = ([], Raise e)).
Proof.
  rewrite module_init_run. cbv zeta. unfold getenv_or. split.
  - now intros ->.
  - now intros x -> ->.
Qed.

Lemma module_init_numbers_first_witness :
  server.module_init (Sample2.with_bad_numbers (Sample.env_with_key None))
  = ([], Raise (mkExc ValueError "could not convert string to float: '0.2'")).
Proof.
  apply (module_init_numbers_first
           (Sample2.with_bad_numbers (Sample.env_with_key None))).
  reflexivity.
Defined.

(* ----------------------------------------------------------------- *)
(** *** Runs of the tool                                              *)
(* ----------------------------------------------------------------- *)

(** X12. What the tool reports for each failing step of the core, the
    path having passed the two stats of the tool: a path the core does not
    find is reported with its absolute form after the two prefixes
    "File not found: Image file not found: "; an unsupported extension and
    a decoding failure are reported as "Invalid input: ..."; a failed read
    is reported as "Error describing image: Failed to read image file:
    ...", whatever the class of the underlying error, [FileNotFoundError]
    included; a failure after the request as "Error describing image:
    Ollama Cloud API error: ...".  A description is passed on unchanged. *)
Theorem tool_stage_messages
    (suffix absolute : string -> string) (ollama_client : OllamaVisionClient)
    (p : string) (prompt : option string) (env : Env) :
  let q := absolute p in
  let outcome :=
    snd (server.describe_image suffix absolute ollama_client p prompt env) in
  fs_exists env p = Answer true -> fs_is_file env p = Answer true ->
  (fs_exists env q = Answer false ->
     outcome = Raise (mkExc RuntimeError
                        ("File not found: Image file not found: " ++ q)))
  /\ (fs_exists env q = Answer true -> ~ In (lower (suffix q)) supported_extensions ->
      outcome = Raise (mkExc RuntimeError
                         ("Invalid input: "
                          ++ unsupported_message (lower (suffix q)))))
  /\ (fs_exists env q = Answer true -> In (lower (suffix q)) supported_extensions ->
      forall cause, pil_verify env q = Raise cause ->
      outcome = Raise (mkExc RuntimeError
                         ("Invalid input: Invalid or corrupted image file: "
                          ++ exc_str cause)))
  /\ (fs_exists env q = Answer true -> In (lower (suffix q)) supported_extensions ->
      pil_verify env q = Return tt ->
      forall cause, fs_read env q = Raise cause ->
      outcome = Raise (mkExc RuntimeError
                         ("Error describing image: Failed to read image file: "
                          ++ exc_str cause)))
  /\ (fs_exists env q = Answer true -> In (lower (suffix q)) supported_extensions ->
      pil_verify env q = Return tt ->
      forall bytes, fs_read env q = Return bytes ->
      outcome
      = match interpret
                (api_chat_create env
                   (chat_request ollama_client
                      (str_or prompt "Describe this image in detail.")
                      (_get_mime_type suffix q) (b64encode bytes))) with
        | Return text => Return text
        | Raise e =>
            Raise (mkExc RuntimeError
                     ("Error describing image: " ++ exc_str e))
        end).
Proof.
  cbv zeta. intros Hex Hfile. unfold server.describe_image.
  rewrite describe_image_with_run, Hex, Hfile, describe_image_run.
  cbn [snd]. repeat apply conj.
  - now intros ->.
  - intros -> Hext. apply dict_contains_unsupported in Hext.
    now rewrite Hext.
  - intros -> Hext cause ->. apply dict_contains_supported in Hext.
    now rewrite Hext.
  - intros -> Hext -> cause ->. apply dict_contains_supported in Hext.
    now rewrite Hext.
  - intros -> Hext -> bytes ->. apply dict_contains_supported in Hext.
    rewrite Hext. cbv zeta. cbn [snd]. unfold default_prompt.
    destruct (interpret _) as [text|e] eqn:Hint; [reflexivity|].
    f_equal. f_equal. f_equal.
    unfold interpret in Hint.
    destruct (api_chat_create env _) as [[[|[[|c t]|] rest]]|e0];
      cbn [choices] in Hint; try discriminate; now injection Hint as <-.
Qed.

Lemma tool_stage_messages_witness :
  snd (server.describe_image Sample.posix_suffix Sample.posix_absolute
         Sample.client "gone.png" None Sample2.env_vanished)
  = Raise (mkExc RuntimeError
             ("Error describing image: Failed to read image file: "
              ++ "[Errno 2] No such file or directory: '/srv/gone.png'")).
Proof.
  destruct (tool_stage_messages Sample.posix_suffix Sample.posix_absolute
              Sample.client "gone.png" None Sample2.env_vanished
              ltac:(reflexivity) ltac:(reflexivity))
    as (_ & _ & _ & H & _).
  apply (H ltac:(reflexivity) ltac:(vm_compute; tauto) ltac:(reflexivity)
           (mkExc FileNotFoundError
              "[Errno 2] No such file or directory: '/srv/gone.png'")).
  reflexivity.
Defined.

(** X13. The trace of every run of the tool on [p] is a non-empty initial
    part of: stat of [p], file test of [p], then the four steps of the
    core on the absolute path.  So the tool calls the provider's client at
    most once, as the last step, and not before its own two stats and the
    three checks of the core have passed; a run that returns has made all
    six steps. *)
Theorem tool_trace_prefix
    (suffix absolute : string -> string) (ollama_client : OllamaVisionClient)
    (p : string) (prompt : option string) (env : Env) :
  let run := server.describe_image suffix absolute ollama_client p prompt env in
  exists request k,
    1 <= k <= 6
    /\ fst run = firstn k (full_tool_trace p (absolute p) request)
    /\ (forall text, snd run = Return text -> k = 6).
Proof.
  cbv zeta. unfold server.describe_image.
  rewrite describe_image_with_run, describe_image_run.
  set (dummy := chat_request ollama_client "" "" "").
  destruct (fs_exists env p) as [[|]|message].
  2,3: exists dummy, 1; repeat split; cbn; try lia; discriminate.
  destruct (fs_is_file env p) as [[|]|message].
  2,3: exists dummy, 2; repeat split; cbn; try lia; discriminate.
  destruct (fs_exists env (absolute p)) as [[|]|message].
  2,3: exists dummy, 3; repeat split; cbn; try lia; discriminate.
  destruct (dict_contains _ _);
    [|exists dummy, 3; repeat split; cbn; try lia; discriminate].
  destruct (pil_verify env (absolute p)) as [[]|e];
    [|exists dummy, 4; repeat split; cbn; try lia; discriminate].
  destruct (fs_read env (absolute p)) as [bytes|e];
    [|exists dummy, 5; repeat split; cbn; try lia; discriminate].
  cbv zeta. eexists. exists 6. repeat split; cbn; lia.
Qed.

Lemma tool_trace_prefix_witness :
  exists request k,
    1 <= k <= 6
    /\ fst (server.describe_image Sample.posix_suffix Sample.posix_absolute
              Sample.client "t.png" None Sample.env_ok)
       = firstn k (full_tool_trace "t.png" "/srv/t.png" request)
    /\ k = 6.
Proof.
  destruct (tool_trace_prefix Sample.posix_suffix Sample.posix_absolute
              Sample.client "t.png" None Sample.env_ok)
    as (request & k & Hk & Htrace & Hfull).
  exists request, k. repeat split; try assumption; try apply Hk.
  apply (Hfull "a red square"). reflexivity.
Defined.

(* ----------------------------------------------------------------- *)
(** *** The log records                                               *)
(* ----------------------------------------------------------------- *)

Import Logging.

Lemma events_app (s t : list Step) : events (s ++ t) = (events s ++ events t)%list.
Proof.
  induction s as [|[ev|lg lv msg] s IH]; cbn [events app];
    [reflexivity | now rewrite IH | exact IH].
Qed.

Lemma records_app (s t : list Step) :
  records (s ++ t) = (records s ++ records t)%list.
Proof.
  induction s as [|[ev|lg lv msg] s IH]; cbn [records app];
    [reflexivity | exact IH | now rewrite IH].
Qed.

Lemma events_lift (t : Trace) : events (map Ext t) = t.
Proof. induction t as [|ev t IH]; cbn; [reflexivity | now rewrite IH]. Qed.

Lemma refines_lift {A} (m : M A) : refines (lift m) m.
Proof.
  intros env. unfold lift. destruct (m env) as [t r]. cbn [fst snd].
  now rewrite events_lift.
Qed.

Lemma refines_ret {A} (a : A) : refines (lret a) (ret a).
Proof. intros env. split; reflexivity. Qed.

Lemma refines_raise {A} (e : Exc) : refines (@lraise A e) (raise e).
Proof. intros env. split; reflexivity. Qed.

Lemma refines_bind {A B} (l : L A) (m : M A) (lf : A -> L B) (mf : A -> M B) :
  refines l m -> (forall a, refines (lf a) (mf a)) ->
  refines (lbind l lf) (bind m mf).
Proof.
  intros Hl Hf env. unfold lbind, bind.
  destruct (Hl env) as (Ht & Hr).
  destruct (l env) as [t1 r1], (m env) as [t1' r1']. cbn [fst snd] in Ht, Hr.
  subst t1' r1'. destruct r1 as [a|e]; [|split; reflexivity].
  destruct (Hf a env) as (Ht2 & Hr2).
  destruct (lf a env) as [t2 r2], (mf a env) as [t2' r2'].
  cbn [fst snd] in *. subst. now rewrite events_app.
Qed.

Lemma refines_try {A} (l : L A) (m : M A) (lh : Exc -> L A) (mh : Exc -> M A) :
  refines l m -> (forall e, refines (lh e) (mh e)) ->
  refines (ltry_except l lh) (try_except m mh).
Proof.
  intros Hl Hh env. unfold ltry_except, try_except.
  destruct (Hl env) as (Ht & Hr).
  destruct (l env) as [t1 r1], (m env) as [t1' r1']. cbn [fst snd] in Ht, Hr.
  subst t1' r1'. destruct r1 as [a|e]; [split; reflexivity|].
  destruct (Hh e env) as (Ht2 & Hr2).
  destruct (lh e env) as [t2 r2], (mh e env) as [t2' r2'].
  cbn [fst snd] in *. subst. now rewrite events_app.
Qed.

Lemma refines_silent {A} (l0 : L unit) (l : L A) (m : M A) :
  silent l0 -> refines l m -> refines (lbind l0 (fun _ => l)) m.
Proof.
  intros H0 Hl env. unfold lbind.
  destruct (H0 env) as (Ht0 & Hr0). destruct (Hl env) as (Ht & Hr).
  destruct (l0 env) as [t0 r0]. cbn [fst snd] in Ht0, Hr0. subst r0.
  destruct (l env) as [t r]. cbn [fst snd] in *.
  now rewrite events_app, Ht0.
Qed.

Lemma silent_log (lg : string) (lv : Level) (msg : string) :
  silent (log lg lv msg).
Proof. intros env. split; reflexivity. Qed.

Lemma silent_ret : silent (lret tt).
Proof. intros env. split; reflexivity. Qed.

Ltac refine_steps :=
  repeat first
    [ apply refines_lift | apply refines_ret | apply refines_raise
    | apply refines_silent; [apply silent_log|]
    | apply refines_bind; [|intro]
    | apply refines_try; [|intro] ].

Lemma refines_init (key url name : string) (t : float) (n : Z) :
  refines (ollama_vision_client_logged.__init__ key url name t n)
    (__init__ key url name t n).
Proof.
  unfold ollama_vision_client_logged.__init__, __init__. refine_steps.
Qed.

Lemma refines_encode_image (name : string -> string) (p : string) :
  refines (ollama_vision_client_logged._encode_image name p) (_encode_image p).
Proof.
  unfold ollama_vision_client_logged._encode_image, _encode_image.
  refine_steps.
Qed.

Lemma refines_describe_image (suffix name : string -> string)
    (self : OllamaVisionClient) (p : string) (prompt : option string) :
  refines (ollama_vision_client_logged.describe_image suffix name self p prompt)
    (describe_image suffix self p prompt).
Proof.
  unfold ollama_vision_client_logged.describe_image, describe_image.
  apply refines_bind; [apply refines_lift | intros found].
  destruct found; cbn [negb]; [|apply refines_raise].
  apply refines_bind; [apply refines_lift | intros _].
  apply refines_bind; [apply refines_encode_image | intros payload].
  cbv zeta. refine_steps.
  destruct a0 as [[|c text]|]; refine_steps.
Qed.

Lemma refines_check_connection (self : OllamaVisionClient) :
  refines (ollama_vision_client_logged.check_connection self)
    (check_connection self).
Proof.
  unfold ollama_vision_client_logged.check_connection, check_connection.
  refine_steps.
Qed.

Lemma refines_module_init :
  refines server_logged.module_init server.module_init.
Proof.
  unfold server_logged.module_init, server.module_init.
  do 7 (apply refines_bind; [apply refines_lift | intro]).
  destruct a as [[|c key]|]; cbn [str_is_empty];
    try apply refines_init; refine_steps.
Qed.

Lemma refines_tool (suffix name absolute : string -> string)
    (ollama_client : OllamaVisionClient) (p : string) (prompt : option string) :
  refines (server_logged.describe_image suffix name absolute ollama_client
             p prompt)
    (server.describe_image suffix absolute ollama_client p prompt).
Proof.
  unfold server_logged.describe_image, server.describe_image,
    server.describe_image_with.
  apply refines_silent; [apply silent_log|].
  apply refines_silent.
  { destruct prompt as [[|c text]|]; cbn [str_is_empty];
      (apply silent_log || apply silent_ret). }
  apply refines_try.
  - apply refines_bind; [apply refines_lift | intros found].
    destruct found; cbn [negb]; [|cbv zeta; refine_steps].
    apply refines_bind; [apply refines_lift | intros is_file].
    destruct is_file; cbn [negb]; [|cbv zeta; refine_steps].
    apply refines_bind; [apply refines_describe_image | intros description].
    refine_steps.
  - intros e. unfold server_logged.translate, server.translate.
    destruct (isinstance e FileNotFoundError); [cbv zeta; refine_steps|].
    destruct (isinstance e ValueError); cbv zeta; refine_steps.
Qed.

(** The two embeddings agree: for the constructor, [_encode_image],
    [describe_image], [check_connection], the bootstrap and the tool,
    dropping the log records from a run of the program with its log
    records leaves the run of the program without them. *)
Lemma logged_program_refines
    (suffix name absolute : string -> string) (self : OllamaVisionClient) :
  (forall key url model t n,
     refines (ollama_vision_client_logged.__init__ key url model t n)
       (__init__ key url model t n))
  /\ (forall p,
        refines (ollama_vision_client_logged._encode_image name p)
          (_encode_image p))
  /\ (forall p prompt,
        refines
          (ollama_vision_client_logged.describe_image suffix name self p prompt)
          (describe_image suffix self p prompt))
  /\ refines (ollama_vision_client_logged.check_connection self)
       (check_connection self)
  /\ refines server_logged.module_init server.module_init
  /\ (forall p prompt,
        refines
          (server_logged.describe_image suffix name absolute self p prompt)
          (server.describe_image suffix absolute self p prompt)).
Proof.
  repeat apply conj; intros.
  - apply refines_init.
  - apply refines_encode_image.
  - apply refines_describe_image.
  - apply refines_check_connection.
  - apply refines_module_init.
  - apply refines_tool.
Qed.

Lemma log_then {A} (lg : string) (lv : Level) (msg : string) (l : L A)
    (env : Env) :
  lbind (log lg lv msg) (fun _ => l) env
  = (Log lg lv msg :: fst (l env), snd (l env)).
Proof. unfold lbind, log. now destruct (l env). Qed.

Lemma ret_then {A} (l : L A) (env : Env) :
  lbind (lret tt) (fun _ => l) env = l env.
Proof. unfold lbind, lret. now destruct (l env). Qed.

Lemma lift_then {A B} (m : M A) (k : A -> L B) (env : Env) :
  lbind (lift m) k env
  = match snd (m env) with
    | Return a =>
        ((map Ext (fst (m env)) ++ fst (k a env))%list, snd (k a env))
    | Raise e => (map Ext (fst (m env)), Raise e)
    end.
Proof.
  unfold lbind, lift. destruct (m env) as [t [a|e]]; cbn [fst snd];
    [now destruct (k a env) | reflexivity].
Qed.

Lemma lbind_run {A B} (l : L A) (k : A -> L B) (env : Env) :
  lbind l k env
  = match snd (l env) with
    | Return a => ((fst (l env) ++ fst (k a env))%list, snd (k a env))
    | Raise e => (fst (l env), Raise e)
    end.
Proof.
  unfold lbind. destruct (l env) as [t [a|e]]; cbn [fst snd];
    [now destruct (k a env) | reflexivity].
Qed.

Lemma ltry_run {A} (l : L A) (h : Exc -> L A) (env : Env) :
  ltry_except l h env
  = match snd (l env) with
    | Return a => (fst (l env), Return a)
    | Raise e => ((fst (l env) ++ fst (h e env))%list, snd (h e env))
    end.
Proof.
  unfold ltry_except. destruct (l env) as [t [a|e]]; cbn [fst snd];
    [reflexivity | now destruct (h e env)].
Qed.

Lemma logged_encode_image_run (name : string -> string) (p : string)
    (env : Env) :
  ollama_vision_client_logged._encode_image name p env =
  match fs_read env p with
  | Return bytes =>
      ([Ext (EvReadFile p);
        Log "OllamaVisionClient" DEBUG
          ("Encoded image: " ++ name p ++ " ("
           ++ str_of_nat (String.length (b64encode bytes)) ++ " bytes)")],
       Return (b64encode bytes))
  | Raise e =>
      ([Ext (EvReadFile p)],
       Raise (mkExc OSError ("Failed to read image file: " ++ exc_str e)))
  end.
Proof.
  unfold ollama_vision_client_logged._encode_image.
  rewrite ltry_run, lift_then. unfold open_rb_read, perform.
  cbn [fst snd map app].
  destruct (fs_read env p) as [bytes|e]; cbn [fst snd]; [|reflexivity].
  rewrite log_then. reflexivity.
Qed.

(** The core with its log records as a decision tree over the answers of
    the environment. *)
Lemma logged_describe_image_run
    (suffix name : string -> string) (self : OllamaVisionClient)
    (p : string) (prompt : option string) (env : Env) :
  ollama_vision_client_logged.describe_image suffix name self p prompt env =
  match fs_exists env p with
  | StatError message =>
      ([Ext (EvExists p)], Raise (mkExc OSError message))
  | Answer false =>
      ([Ext (EvExists p)],
       Raise (mkExc FileNotFoundError ("Image file not found: " ++ p)))
  | Answer true =>
      if dict_contains SUPPORTED_FORMATS (lower (suffix p)) then
        match pil_verify env p with
        | Raise e =>
            ([Ext (EvExists p); Ext (EvImageVerify p)],
             Raise (mkExc ValueError
                      ("Invalid or corrupted image file: " ++ exc_str e)))
        | Return _ =>
            match fs_read env p with
            | Raise e =>
                ([Ext (EvExists p); Ext (EvImageVerify p);
                  Ext (EvReadFile p)],
                 Raise (mkExc OSError
                          ("Failed to read image file: " ++ exc_str e)))
            | Return bytes =>
                let user_prompt := str_or prompt default_prompt in
                let request :=
                  chat_request self user_prompt (_get_mime_type suffix p)
                    (b64encode bytes) in
                let head :=
                  logged_head name self p user_prompt bytes request in
                match interpret (api_chat_create env request) with
                | Return text =>
                    ((head ++
                      [Log "OllamaVisionClient" INFO
                         ("Successfully received description ("
                          ++ str_of_nat (String.length text)
                          ++ " chars)")])%list,
                     Return text)
                | Raise e =>
                    ((head
                      ++ [Log "OllamaVisionClient" ERROR (exc_str e)])%list,
                     Raise e)
                end
            end
        end
      else
        ([Ext (EvExists p)],
         Raise (mkExc ValueError (unsupported_message (lower (suffix p)))))
  end.
Proof.
  unfold ollama_vision_client_logged.describe_image.
  rewrite lift_then. unfold Path_exists, perform. cbn [fst snd map app].
  destruct (fs_exists env p) as [[|]|message];
    cbn [stat_outcome fst snd map app negb]; try reflexivity.
  rewrite lift_then, validate_image_run.
  destruct (dict_contains _ _); cbn [fst snd map app]; [|reflexivity].
  destruct (pil_verify env p) as [[]|e]; [|reflexivity].
  rewrite lbind_run, logged_encode_image_run.
  destruct (fs_read env p) as [bytes|e]; cbn [fst snd app]; [|reflexivity].
  rewrite !log_then. cbn [fst snd].
  rewrite ltry_run, lift_then.
  unfold chat_completions_create, perform. cbn [fst snd map app].
  unfold default_prompt, interpret, logged_head,
    ollama_vision_client_logged.logger.
  destruct (api_chat_create env _) as [[[|[[|c text]|] rest]]|e];
    cbn [choices]; try (rewrite lift_then; cbn [index0 fst snd ret raise]);
    reflexivity.
Qed.

Lemma logged_translate_run (e : Exc) (env : Env) :
  server_logged.translate e env
  = ([Log "MCP_Image_Validator" ERROR (translate_prefix e ++ exc_str e)],
     Raise (mkExc RuntimeError (translate_prefix e ++ exc_str e))).
Proof.
  unfold server_logged.translate, translate_prefix, isinstance.
  destruct (exc_class e); cbv zeta; now rewrite log_then.
Qed.

(** The tool with its log records as a decision tree over the answers of
    the environment and the run of the core. *)
Lemma logged_tool_run
    (suffix name absolute : string -> string)
    (ollama_client : OllamaVisionClient)
    (p : string) (prompt : option string) (env : Env) :
  server_logged.describe_image suffix name absolute ollama_client p prompt env
  =
  let core :=
    ollama_vision_client_logged.describe_image suffix name ollama_client
      (absolute p) prompt env in
  match fs_exists env p with
  | StatError message =>
      ((tool_intro p prompt
        ++ [Ext (EvExists p);
            Log "MCP_Image_Validator" ERROR
              ("Error describing image: " ++ message)])%list,
       Raise (mkExc RuntimeError ("Error describing image: " ++ message)))
  | Answer false =>
      ((tool_intro p prompt
        ++ [Ext (EvExists p);
            Log "MCP_Image_Validator" ERROR ("Image file not found: " ++ p);
            Log "MCP_Image_Validator" ERROR
              ("File not found: Image file not found: " ++ p)])%list,
       Raise (mkExc RuntimeError
                ("File not found: Image file not found: " ++ p)))
  | Answer true =>
      match fs_is_file env p with
      | StatError message =>
          ((tool_intro p prompt
            ++ [Ext (EvExists p); Ext (EvIsFile p);
                Log "MCP_Image_Validator" ERROR
                  ("Error describing image: " ++ message)])%list,
           Raise (mkExc RuntimeError ("Error describing image: " ++ message)))
      | Answer false =>
          ((tool_intro p prompt
            ++ [Ext (EvExists p); Ext (EvIsFile p);
                Log "MCP_Image_Validator" ERROR ("Path is not a file: " ++ p);
                Log "MCP_Image_Validator" ERROR
                  ("Invalid input: Path is not a file: " ++ p)])%list,
           Raise (mkExc RuntimeError
                    ("Invalid input: Path is not a file: " ++ p)))
      | Answer true =>
          match snd core with
          | Return description =>
              ((tool_intro p prompt
                ++ Ext (EvExists p) :: Ext (EvIsFile p) :: fst core
                ++ [Log "MCP_Image_Validator" INFO
                      ("Successfully described image: " ++ name p)])%list,
               Return description)
          | Raise e =>
              ((tool_intro p prompt
                ++ Ext (EvExists p) :: Ext (EvIsFile p) :: fst core
                ++ [Log "MCP_Image_Validator" ERROR
                      (translate_prefix e ++ exc_str e)])%list,
               Raise (mkExc RuntimeError (translate_prefix e ++ exc_str e)))
          end
      end
  end.
Proof.
  cbv zeta. unfold server_logged.describe_image, server_logged.logger.
  rewrite log_then.
  assert (Hintro : forall (l : L string),
    lbind match prompt with
          | Some text =>
              if str_is_empty text then lret tt
              else log "MCP_Image_Validator" INFO ("Custom prompt: " ++ text)
          | None => lret tt
          end (fun _ => l) env
    = ((match prompt with
        | Some (String c text) =>
            [Log "MCP_Image_Validator" INFO
               ("Custom prompt: " ++ String c text)]
        | Some EmptyString | None => []
        end ++ fst (l env))%list, snd (l env))).
  { intros l. destruct prompt as [[|c text]|]; cbn [str_is_empty];
      rewrite ?ret_then, ?log_then; cbn [app]; now destruct (l env). }
  rewrite Hintro. clear Hintro. cbn [fst snd]. unfold tool_intro.
  rewrite ltry_run, lift_then. unfold Path_exists, perform.
  cbn [fst snd map app].
  destruct (fs_exists env p) as [[|]|message];
    cbn [stat_outcome fst snd map app negb].
  2:{ cbv zeta. rewrite log_then. cbn [fst snd lraise app].
      rewrite logged_translate_run. cbn [fst snd]. unfold translate_prefix.
      cbn [exc_class exc_str]. reflexivity. }
  2:{ rewrite logged_translate_run. cbn [fst snd]. unfold translate_prefix.
      cbn [exc_class exc_str]. reflexivity. }
  rewrite lift_then. unfold Path_is_file, perform. cbn [fst snd map app].
  destruct (fs_is_file env p) as [[|]|message];
    cbn [stat_outcome fst snd map app negb].
  2:{ cbv zeta. rewrite log_then. cbn [fst snd lraise app].
      rewrite logged_translate_run. cbn [fst snd]. unfold translate_prefix.
      cbn [exc_class exc_str]. reflexivity. }
  2:{ rewrite logged_translate_run. cbn [fst snd]. unfold translate_prefix.
      cbn [exc_class exc_str]. reflexivity. }
  rewrite lbind_run.
  destruct (snd (ollama_vision_client_logged.describe_image suffix name
                   ollama_client (absolute p) prompt env)) as [d|e];
    cbn [fst snd].
  - rewrite log_then. cbn [fst snd lret app]. reflexivity.
  - rewrite logged_translate_run. cbn [fst snd app]. reflexivity.
Qed.

(** X15. The core writes a record at level ERROR exactly when it raises a
    [RuntimeError], which is after the request, and the record carries the
    message of that exception.  The failures of the existence check, the
    extension check, the decoder and the read leave no ERROR record of the
    core. *)
Theorem core_error_records
    (suffix name : string -> string) (self : OllamaVisionClient)
    (p : string) (prompt : option string) (env : Env) (message : string) :
  let run :=
    ollama_vision_client_logged.describe_image suffix name self p prompt env in
  In (Log "OllamaVisionClient" ERROR message) (fst run)
  <->
  exists e,
    snd run = Raise e /\ exc_class e = RuntimeError /\ exc_str e = message.
Proof.
  cbv zeta. rewrite logged_describe_image_run.
  destruct (fs_exists env p) as [[|]|stat_message].
  2,3: cbn; split; [intros [H | []]; discriminate H|];
       intros (e & [= <-] & H & _); discriminate H.
  destruct (dict_contains _ _).
  2:{ cbn. split; [intros [H | []]; discriminate H|].
      intros (e & [= <-] & H & _). discriminate H. }
  destruct (pil_verify env p) as [[]|c].
  2:{ cbn. split; [intros [H | [H | []]]; discriminate H|].
      intros (e & [= <-] & H & _). discriminate H. }
  destruct (fs_read env p) as [bytes|c].
  2:{ cbn. split; [intros [H | [H | [H | []]]]; discriminate H|].
      intros (e & [= <-] & H & _). discriminate H. }
  cbv zeta.
  assert (Hhead : forall request,
            ~ In (Log "OllamaVisionClient" ERROR message)
                (logged_head name self p (str_or prompt default_prompt) bytes
                   request)).
  { intros request. unfold logged_head. cbn [In].
    intros [H | [H | [H | [H | [H | [H | [H | [H | []]]]]]]]];
      discriminate H. }
  destruct (interpret _) as [text|e] eqn:Hint; cbn [fst snd].
  - split.
    + intros H. apply in_app_or in H. destruct H as [H | [H | []]].
      * now apply Hhead in H.
      * discriminate H.
    + intros (e & H & _). discriminate H.
  - assert (Hclass : exc_class e = RuntimeError).
    { unfold interpret in Hint.
      destruct (api_chat_create env _) as [[[|[[|c t]|] rest]]|e0];
        cbn [choices] in Hint; try discriminate; now injection Hint as <-. }
    split.
    + intros H. apply in_app_or in H. destruct H as [H | [H | []]].
      * now apply Hhead in H.
      * injection H as <-. now exists e.
    + intros (e' & [= <-] & _ & <-). apply in_or_app. right. now left.
Qed.

Lemma core_error_records_witness :
  In (Log "OllamaVisionClient" ERROR
        "Ollama Cloud API error: Empty response from vision model")
     (fst (ollama_vision_client_logged.describe_image Sample.posix_suffix
             Sample2.posix_name Sample.client "t.png" None
             Sample.env_empty_content)).
Proof.
  apply (core_error_records Sample.posix_suffix Sample2.posix_name
           Sample.client "t.png" None Sample.env_empty_content).
  exists (mkExc RuntimeError
            "Ollama Cloud API error: Empty response from vision model").
  repeat split.
Defined.

(** X16. No failure of the tool goes unlogged: whenever the tool raises,
    the exception is a [RuntimeError] and the last step of the run is the
    record of the tool at level ERROR with exactly the message of that
    exception.  Whenever it returns, the last step is its record
    "Successfully described image: <name of the path>". *)
Theorem tool_errors_are_logged
    (suffix name absolute : string -> string)
    (ollama_client : OllamaVisionClient)
    (p : string) (prompt : option string) (env : Env) :
  let run :=
    server_logged.describe_image suffix name absolute ollama_client p prompt
      env in
  (forall e,
     snd run = Raise e ->
     exc_class e = RuntimeError
     /\ exists earlier,
          fst run
          = (earlier ++ [Log "MCP_Image_Validator" ERROR (exc_str e)])%list)
  /\ (forall description,
        snd run = Return description ->
        exists earlier,
          fst run
          = (earlier
             ++ [Log "MCP_Image_Validator" INFO
                   ("Successfully described image: " ++ name p)])%list).
Proof.
  cbv zeta. rewrite logged_tool_run. cbv zeta.
  destruct (fs_exists env p) as [[|]|message].
  2:{ split; [|discriminate]. intros e [= <-]. split; [reflexivity|].
      exists (tool_intro p prompt
              ++ [Ext (EvExists p);
                  Log "MCP_Image_Validator" ERROR
                    ("Image file not found: " ++ p)])%list.
      cbn [fst exc_str]. now rewrite <- app_assoc. }
  2:{ split; [|discriminate]. intros e [= <-]. split; [reflexivity|].
      exists (tool_intro p prompt ++ [Ext (EvExists p)])%list.
      cbn [fst exc_str]. now rewrite <- app_assoc. }
  destruct (fs_is_file env p) as [[|]|message].
  2:{ split; [|discriminate]. intros e [= <-]. split; [reflexivity|].
      exists (tool_intro p prompt
              ++ [Ext (EvExists p); Ext (EvIsFile p);
                  Log "MCP_Image_Validator" ERROR
                    ("Path is not a file: " ++ p)])%list.
      cbn [fst exc_str]. now rewrite <- app_assoc. }
  2:{ split; [|discriminate]. intros e [= <-]. split; [reflexivity|].
      exists (tool_intro p prompt
              ++ [Ext (EvExists p); Ext (EvIsFile p)])%list.
      cbn [fst exc_str]. now rewrite <- app_assoc. }
  destruct (snd (ollama_vision_client_logged.describe_image suffix name
                   ollama_client (absolute p) prompt env)) as [d|e0].
  - split; [discriminate|]. intros description [= <-].
    eexists. cbn [fst]. rewrite app_comm_cons, app_comm_cons, app_assoc.
    reflexivity.
  - split; [|discriminate]. intros e [= <-]. split; [reflexivity|].
    eexists. cbn [fst exc_str].
    rewrite app_comm_cons, app_comm_cons, app_assoc. reflexivity.
Qed.

Lemma tool_errors_are_logged_witness :
  exists earlier,
    fst (server_logged.describe_image Sample.posix_suffix Sample2.posix_name
           Sample.posix_absolute Sample.client "gone.png" None
           Sample2.env_vanished)
    = (earlier
       ++ [Log "MCP_Image_Validator" ERROR
             ("Error describing image: Failed to read image file: "
              ++ "[Errno 2] No such file or directory: '/srv/gone.png'")])%list.
Proof.
  destruct (tool_errors_are_logged Sample.posix_suffix Sample2.posix_name
              Sample.posix_absolute Sample.client "gone.png" None
              Sample2.env_vanished) as (H & _).
  apply (H (mkExc RuntimeError
              ("Error describing image: Failed to read image file: "
               ++ "[Errno 2] No such file or directory: '/srv/gone.png'"))).
  reflexivity.
Defined.

(** The bootstrap with its log records as a decision tree over the
    process environment. *)
Lemma logged_module_init_run (env : Env) :
  server_logged.module_init env =
  let url := getenv_or env "OLLAMA_BASE_URL" "https://ollama.com/v1" in
  let name := getenv_or env "VISION_MODEL" "qwen3-vl:235b-cloud" in
  match float_of_str env (getenv_or env "VISION_TEMPERATURE" "0.2") with
  | Raise e => ([], Raise e)
  | Return x =>
      match int_of_str env (getenv_or env "VISION_MAX_TOKENS" "1000") with
      | Raise e => ([], Raise e)
      | Return n =>
          match environ env "OLLAMA_API_KEY" with
          | None | Some EmptyString =>
              ([ Log "MCP_Image_Validator" ERROR
                   "OLLAMA_API_KEY environment variable is required" ],
               Raise (mkExc ValueError "OLLAMA_API_KEY not set"))
          | Some key =>
              match openai_new env key url with
              | Return _ =>
                  ([ Log "OllamaVisionClient" INFO
                       "Initialized Ollama Cloud client";
                     Log "OllamaVisionClient" INFO ("Base URL: " ++ url);
                     Log "OllamaVisionClient" INFO ("Model: " ++ name) ],
                   Return (mkClient key url name x n))
              | Raise e => ([], Raise e)
              end
          end
      end
  end.
Proof.
  cbv zeta.
  unfold server_logged.module_init, getenv_or, os_getenv, os_getenv_default,
    float_, int_, ask, server_logged.logger.
  do 5 (rewrite lift_then; cbn [fst snd map app]).
  destruct (float_of_str env _) as [x|e]; [|reflexivity].
  do 2 (rewrite lift_then; cbn [fst snd map app]).
  destruct (int_of_str env _) as [n|e]; [|reflexivity].
  destruct (environ env "OLLAMA_API_KEY") as [[|a key]|];
    cbn [str_is_empty]; rewrite ?log_then; try reflexivity.
  unfold ollama_vision_client_logged.__init__,
    ollama_vision_client_logged.logger, OpenAI, ask.
  rewrite lift_then. cbn [fst snd map app].
  destruct (openai_new env _ _); [|reflexivity].
  now rewrite !log_then.
Qed.

(** X18. The records of the bootstrap: when it constructs a client, they
    are the three INFO records of the constructor, built from the base URL
    and the model and from nothing else; when the numeric settings parse
    and [OLLAMA_API_KEY] is unset or empty, the single record is the ERROR
    "OLLAMA_API_KEY environment variable is required". *)
Theorem module_init_records (env : Env) :
  (forall c,
     snd (server_logged.module_init env) = Return c ->
     fst (server_logged.module_init env)
     = [ Log "OllamaVisionClient" INFO "Initialized Ollama Cloud client";
         Log "OllamaVisionClient" INFO ("Base URL: " ++ base_url c);
         Log "OllamaVisionClient" INFO ("Model: " ++ model c) ])
  /\ (forall x n,
        float_of_str env (getenv_or env "VISION_TEMPERATURE" "0.2") = Return x ->
        int_of_str env (getenv_or env "VISION_MAX_TOKENS" "1000") = Return n ->
        environ env "OLLAMA_API_KEY" = None
        \/ environ env "OLLAMA_API_KEY" = Some "" ->
        server_logged.module_init env
        = ([ Log "MCP_Image_Validator" ERROR
               "OLLAMA_API_KEY environment variable is required" ],
           Raise (mkExc ValueError "OLLAMA_API_KEY not set"))).
Proof.
  rewrite logged_module_init_run. cbv zeta. split.
  - intros c.
    destruct (float_of_str env _) as [x|e]; [|discriminate].
    destruct (int_of_str env _) as [n|e]; [|discriminate].
    destruct (environ env "OLLAMA_API_KEY") as [[|a key]|];
      try discriminate.
    destruct (openai_new env _ _); [|discriminate].
    now intros [= <-].
  - intros x n -> -> [-> | ->]; reflexivity.
Qed.

Lemma module_init_records_witness :
  fst (server_logged.module_init (Sample.env_with_key (Some "sk-test")))
  = [ Log "OllamaVisionClient" INFO "Initialized Ollama Cloud client";
      Log "OllamaVisionClient" INFO "Base URL: https://ollama.com/v1";
      Log "OllamaVisionClient" INFO "Model: qwen3-vl:235b-cloud" ]
  /\ server_logged.module_init (Sample.env_with_key None)
     = ([ Log "MCP_Image_Validator" ERROR
            "OLLAMA_API_KEY environment variable is required" ],
        Raise (mkExc ValueError "OLLAMA_API_KEY not set")).
Proof.
  split.
  - destruct (module_init_records (Sample.env_with_key (Some "sk-test")))
      as (H & _).
    apply (H (mkClient "sk-test" "https://ollama.com/v1" "qwen3-vl:235b-cloud"
                default_temperature 1000)).
    reflexivity.
  - destruct (module_init_records (Sample.env_with_key None)) as (_ & H).
    apply (H default_temperature 1000%Z); try reflexivity. now left.
Defined.

(** X19. [check_connection] with its log records: its only call to the
    outside world is the listing of models, and it writes one record.
    When the listing fails, the record is at level ERROR and its message
    is exactly the detail returned to the caller; when it succeeds, the
    record is the INFO "Successfully connected to Ollama Cloud" and the
    detail names the base URL. *)
Theorem check_connection_logged (self : OllamaVisionClient) (env : Env) :
  let run := ollama_vision_client_logged.check_connection self env in
  exists reachable detail,
    snd run = Return (reachable, detail)
    /\ events (fst run) = [EvModelsList]
    /\ (reachable = false ->
        records (fst run) = [("OllamaVisionClient", ERROR, detail)]
        /\ exists e,
             api_models_list env = Raise e
             /\ detail = "Cannot connect to Ollama Cloud: " ++ exc_str e)
    /\ (reachable = true ->
        records (fst run)
        = [("OllamaVisionClient", INFO,
            "Successfully connected to Ollama Cloud")]
        /\ detail = "Connected to " ++ base_url self).
Proof.
  cbv zeta. unfold ollama_vision_client_logged.check_connection,
    ollama_vision_client_logged.logger.
  rewrite ltry_run, lift_then. unfold models_list, perform.
  cbn [fst snd map app].
  destruct (api_models_list env) as [[]|e]; cbn [fst snd].
  - rewrite log_then. cbn [fst snd lret app].
    exists true, ("Connected to " ++ base_url self).
    repeat split; discriminate.
  - cbv zeta. rewrite log_then. cbn [fst snd lret app].
    exists false, ("Cannot connect to Ollama Cloud: " ++ exc_str e).
    repeat split; try discriminate. now exists e.
Qed.

Lemma check_connection_logged_witness :
  ollama_vision_client_logged.check_connection Sample.client
    Sample.env_transport_failure
  = ([ Ext EvModelsList;
       Log "OllamaVisionClient" ERROR
         "Cannot connect to Ollama Cloud: Connection error." ],
     Return (false, "Cannot connect to Ollama Cloud: Connection error."))
  /\ exists reachable detail,
       snd (ollama_vision_client_logged.check_connection Sample.client
              Sample.env_transport_failure) = Return (reachable, detail)
       /\ (reachable = false ->
           records
             (fst (ollama_vision_client_logged.check_connection Sample.client
                     Sample.env_transport_failure))
           = [("OllamaVisionClient", ERROR, detail)]).
Proof.
  split; [reflexivity|].
  destruct (check_connection_logged Sample.client
              Sample.env_transport_failure)
    as (reachable & detail & Hret & _ & Hfail & _).
  exists reachable, detail. split; [exact Hret|].
  intros Hr. now destruct (Hfail Hr).
Defined.

(* ----------------------------------------------------------------- *)
(** *** The functional test                                           *)
(* ----------------------------------------------------------------- *)

Lemma bind_run {A B} (m : M A) (k : A -> M B) (env : Env) :
  bind m k env
  = match snd (m env) with
    | Return a => ((fst (m env) ++ fst (k a env))%list, snd (k a env))
    | Raise e => (fst (m env), Raise e)
    end.
Proof.
  unfold bind. destruct (m env) as [t [a|e]]; cbn [fst snd];
    [now destruct (k a env) | reflexivity].
Qed.

Lemma try_run {A} (m : M A) (h : Exc -> M A) (env : Env) :
  try_except m h env
  = match snd (m env) with
    | Return a => (fst (m env), Return a)
    | Raise e => ((fst (m env) ++ fst (h e env))%list, snd (h e env))
    end.
Proof.
  unfold try_except. destruct (m env) as [t [a|e]]; cbn [fst snd];
    [reflexivity | now destruct (h e env)].
Qed.

(** The search passes over the names whose stat answers [False]. *)
Lemma find_test_image_skip (before rest : list string) (env : Env) :
  Forall (fun m => fs_exists env m = Answer false) before ->
  test_full.find_test_image (before ++ rest) env
  = ((map EvExists before ++ fst (test_full.find_test_image rest env))%list,
     snd (test_full.find_test_image rest env)).
Proof.
  induction 1 as [|m before Hm _ IH]; cbn [app map].
  - now destruct (test_full.find_test_image rest env).
  - cbn [test_full.find_test_image]. rewrite bind_run.
    unfold Path_exists, perform. cbn [fst snd]. rewrite Hm.
    cbn [stat_outcome app]. now rewrite IH.
Qed.

(** What the search returns tells what the stats answered. *)
Lemma find_test_image_result (names : list string) (env : Env) :
  (forall img_name,
     snd (test_full.find_test_image names env) = Return (Some img_name) ->
     fs_exists env img_name = Answer true
     /\ exists before after,
          names = (before ++ img_name :: after)%list
          /\ Forall (fun m => fs_exists env m = Answer false) before)
  /\ (snd (test_full.find_test_image names env) = Return None ->
      Forall (fun m => fs_exists env m = Answer false) names).
Proof.
  induction names as [|m names (IHsome & IHnone)].
  - split; [discriminate | constructor].
  - cbn [test_full.find_test_image]. rewrite bind_run.
    unfold Path_exists, perform. cbn [fst snd].
    destruct (fs_exists env m) as [[|]|message] eqn:Hm;
      cbn [stat_outcome fst snd ret].
    + split; [|discriminate]. intros img_name [= <-].
      split; [exact Hm|]. exists [], names. split; [reflexivity | constructor].
    + split.
      * intros img_name Hfind.
        destruct (IHsome img_name Hfind)
          as (Himg & before & after & -> & Hbefore).
        split; [exact Himg|]. exists (m :: before), after.
        split; [reflexivity | now constructor].
      * intros Hnone. constructor; [exact Hm | now apply IHnone].
    + split; discriminate.
Qed.

(** X20. The search for a test image stats the candidate names in order
    and stops at the first name whose stat does not answer [False].  When
    that stat answers [True] the search returns the name; when it fails,
    [Path.exists] raising the [OSError] of the stat, the search raises
    that error, the loop being outside any [try]; in both cases it has
    stat'ed that name and the names before it, and no later one.  When
    every stat answers [False] the search returns nothing, having stat'ed
    all the names. *)
Theorem find_test_image_first (env : Env) :
  (forall before img_name after,
     Forall (fun m => fs_exists env m = Answer false) before ->
     fs_exists env img_name = Answer true ->
     test_full.find_test_image (before ++ img_name :: after) env
     = (map EvExists (before ++ [img_name]), Return (Some img_name)))
  /\ (forall before img_name after message,
        Forall (fun m => fs_exists env m = Answer false) before ->
        fs_exists env img_name = StatError message ->
        test_full.find_test_image (before ++ img_name :: after) env
        = (map EvExists (before ++ [img_name]),
           Raise (mkExc OSError message)))
  /\ (forall names,
        Forall (fun m => fs_exists env m = Answer false) names ->
        test_full.find_test_image names env
        = (map EvExists names, Return None)).
Proof.
  repeat apply conj.
  - intros before img_name after Hbefore Himg.
    rewrite (find_test_image_skip _ _ _ Hbefore).
    cbn [test_full.find_test_image]. rewrite bind_run.
    unfold Path_exists, perform. cbn [fst snd]. rewrite Himg.
    cbn [stat_outcome fst snd ret]. now rewrite map_app, app_nil_r.
  - intros before img_name after message Hbefore Himg.
    rewrite (find_test_image_skip _ _ _ Hbefore).
    cbn [test_full.find_test_image]. rewrite bind_run.
    unfold Path_exists, perform. cbn [fst snd]. rewrite Himg.
    cbn [stat_outcome fst snd]. now rewrite map_app.
  - intros names Hall.
    rewrite <- (app_nil_r names) at 1.
    rewrite (find_test_image_skip _ _ _ Hall).
    cbn [test_full.find_test_image ret fst snd]. now rewrite app_nil_r.
Qed.

Lemma find_test_image_first_witness :
  test_full.find_test_image test_full.test_images Sample2.env_test
  = ([EvExists "test.jpg"; EvExists "test.png"; EvExists "sample.jpg"],
     Return (Some "sample.jpg"))
  /\ test_full.find_test_image ["test.jpg"; Sample2.long_name; "sample.jpg"]
       Sample2.env_name_max
     = ([EvExists "test.jpg"; EvExists Sample2.long_name],
        Raise (mkExc OSError
                 ("[Errno 36] File name too long: '" ++ Sample2.long_name
                  ++ "'")))
  /\ test_full.find_test_image test_full.test_images Sample.env_ok
     = (map EvExists test_full.test_images, Return None).
Proof.
  destruct (find_test_image_first Sample2.env_test) as (Hfound & _).
  destruct (find_test_image_first Sample2.env_name_max) as (_ & Hfails & _).
  destruct (find_test_image_first Sample.env_ok) as (_ & _ & Hnone).
  repeat apply conj.
  - apply (Hfound ["test.jpg"; "test.png"] "sample.jpg" ["sample.png"]).
    + repeat constructor.
    + reflexivity.
  - apply (Hfails ["test.jpg"] Sample2.long_name ["sample.jpg"]).
    + repeat constructor.
    + vm_compute. reflexivity.
  - apply Hnone. repeat constructor.
Defined.

(** The functional test as a decision tree over the answers of the
    environment. *)
Lemma test_full_flow_run
    (suffix absolute : string -> string) (stdin : test_full.Input)
    (env : Env) :
  test_full.test_full_flow suffix absolute stdin env =
  match environ env "OLLAMA_API_KEY" with
  | None | Some EmptyString => ([], Return (Some false))
  | Some key =>
      let url := getenv_or env "OLLAMA_BASE_URL" "https://ollama.com/v1" in
      let name := getenv_or env "VISION_MODEL" "qwen3-vl:235b-cloud" in
      let client :=
        mkClient key url name default_temperature default_max_tokens in
      let describe path :=
        describe_image suffix client (absolute path)
          (Some "Describe this image in detail.") env in
      let verdict path : option bool :=
        match snd (describe path) with
        | Return _ => Some true
        | Raise _ => Some false
        end in
      let search := test_full.find_test_image test_full.test_images env in
      match openai_new env key url with
      | Raise _ => ([], Return (Some false))
      | Return _ =>
          match api_models_list env with
          | Raise _ => ([EvModelsList], Return (Some false))
          | Return _ =>
              match snd search with
              | Raise e => ((EvModelsList :: fst search)%list, Raise e)
              | Return (Some img_name) =>
                  ((EvModelsList :: fst search ++ fst (describe img_name))%list,
                   Return (verdict img_name))
              | Return None =>
                  match stdin with
                  | test_full.EndOfFile =>
                      ((EvModelsList :: fst search)%list, Return None)
                  | test_full.InputError e =>
                      ((EvModelsList :: fst search)%list, Raise e)
                  | test_full.Line line =>
                      match test_full.strip test_full.py_isspace line with
                      | EmptyString =>
                          ((EvModelsList :: fst search)%list, Return None)
                      | String c rest =>
                          let user_path :=
                            test_full.strip test_full.is_quote (String c rest) in
                          match fs_exists env user_path with
                          | StatError message =>
                              ((EvModelsList :: fst search
                                ++ [EvExists user_path])%list,
                               Raise (mkExc OSError message))
                          | Answer false =>
                              ((EvModelsList :: fst search
                                ++ [EvExists user_path])%list,
                               Return (Some false))
                          | Answer true =>
                              ((EvModelsList :: fst search
                                ++ EvExists user_path
                                :: fst (describe user_path))%list,
                               Return (verdict user_path))
                          end
                      end
                  end
              end
          end
      end
  end.
Proof.
  unfold test_full.test_full_flow.
  rewrite bind_run. unfold os_getenv, ask. cbn [fst snd app].
  destruct (environ env "OLLAMA_API_KEY") as [[|a key]|]; try reflexivity.
  cbn [str_is_empty]. cbv zeta. unfold getenv_or.
  do 2 (rewrite bind_run; unfold os_getenv_default, ask;
        cbn [fst snd app]).
  rewrite bind_run, try_run, bind_run, init_run. cbn [fst snd app].
  destruct (openai_new env _ _) as [[]|e]; cbn [fst snd ret app];
    [|reflexivity].
  rewrite bind_run. unfold check_connection.
  rewrite try_run, bind_run. unfold models_list, perform.
  cbn [fst snd ret app].
  destruct (api_models_list env) as [[]|e]; cbn [fst snd negb app];
    [|reflexivity].
  rewrite bind_run.
  destruct (snd (test_full.find_test_image test_full.test_images env))
    as [[img_name|]|e]; [| |reflexivity].
  - rewrite bind_run. cbn [fst snd ret app]. rewrite try_run, bind_run.
    destruct (snd (describe_image _ _ _ _ _)) as [d|e]; cbn [fst snd ret];
      now rewrite ?app_nil_r.
  - destruct stdin as [line| |e].
    + destruct (test_full.strip test_full.py_isspace line) as [|c rest];
        cbn [str_is_empty].
      * rewrite bind_run. cbn [fst snd ret]. now rewrite !app_nil_r.
      * cbv zeta. rewrite bind_run, bind_run. unfold Path_exists, perform.
        cbn [fst snd app].
        destruct (fs_exists env _) as [[|]|message];
          cbn [stat_outcome negb fst snd ret app].
        -- rewrite try_run, bind_run.
           destruct (snd (describe_image _ _ _ _ _)) as [d|e];
             cbn [fst snd ret]; now rewrite ?app_nil_r.
        -- reflexivity.
        -- reflexivity.
    + rewrite bind_run. cbn [fst snd ret]. now rewrite !app_nil_r.
    + rewrite bind_run. cbn [fst snd raise]. now rewrite !app_nil_r.
Qed.

(** X21. The functional test gives up early, with the result [False]:
    without a credential in [OLLAMA_API_KEY] it touches nothing at all;
    when the constructor fails it touches nothing either; when the
    connection check fails its only call is the listing of models, so no
    file is looked at and no description is requested. *)
Theorem test_gives_up_early
    (suffix absolute : string -> string) (stdin : test_full.Input)
    (env : Env) :
  let run := test_full.test_full_flow suffix absolute stdin env in
  (environ env "OLLAMA_API_KEY" = None
   \/ environ env "OLLAMA_API_KEY" = Some "" ->
   run = ([], Return (Some false)))
  /\ (forall key e,
        environ env "OLLAMA_API_KEY" = Some key -> key <> "" ->
        openai_new env key
          (getenv_or env "OLLAMA_BASE_URL" "https://ollama.com/v1") = Raise e ->
        run = ([], Return (Some false)))
  /\ (forall key e,
        environ env "OLLAMA_API_KEY" = Some key -> key <> "" ->
        openai_new env key
          (getenv_or env "OLLAMA_BASE_URL" "https://ollama.com/v1") = Return tt ->
        api_models_list env = Raise e ->
        run = ([EvModelsList], Return (Some false))).
Proof.
  cbv zeta. rewrite test_full_flow_run. repeat apply conj.
  - now intros [-> | ->].
  - intros key e -> Hkey Hnew. destruct key; [contradiction|].
    cbv zeta. now rewrite Hnew.
  - intros key e -> Hkey Hnew Hlist. destruct key; [contradiction|].
    cbv zeta. now rewrite Hnew, Hlist.
Qed.

Lemma test_gives_up_early_witness :
  test_full.test_full_flow Sample.posix_suffix Sample.posix_absolute
    test_full.EndOfFile (Sample.env_with_key None)
  = ([], Return (Some false))
  /\ test_full.test_full_flow Sample.posix_suffix Sample.posix_absolute
       test_full.EndOfFile Sample2.env_test_offline
     = ([EvModelsList], Return (Some false)).
Proof.
  split.
  - destruct (test_gives_up_early Sample.posix_suffix Sample.posix_absolute
                test_full.EndOfFile (Sample.env_with_key None)) as (H & _).
    apply H. now left.
  - destruct (test_gives_up_early Sample.posix_suffix Sample.posix_absolute
                test_full.EndOfFile Sample2.env_test_offline) as (_ & _ & H).
    apply (H "sk-test" (mkExc OtherException "Connection error."));
      try reflexivity.
    discriminate.
Defined.

(** X23. The functional test returns [True] only when the connection
    check succeeded and [describe_image] returned a description, which is
    not empty, for an image that exists: the first candidate name that
    exists, the stats of the candidates before it having answered
    [False]; or else, no candidate existing, the path typed by the user,
    stripped of blanks and quotes. *)
Theorem test_passes_only_with_description
    (suffix absolute : string -> string) (stdin : test_full.Input)
    (env : Env) :
  snd (test_full.test_full_flow suffix absolute stdin env) = Return (Some true) ->
  exists key path text,
    environ env "OLLAMA_API_KEY" = Some key
    /\ api_models_list env = Return tt
    /\ fs_exists env path = Answer true
    /\ ((exists before after,
           test_full.test_images = (before ++ path :: after)%list
           /\ Forall (fun m => fs_exists env m = Answer false) before)
        \/ (Forall (fun m => fs_exists env m = Answer false)
              test_full.test_images
            /\ exists line,
                 stdin = test_full.Line line
                 /\ path = test_full.strip test_full.is_quote
                             (test_full.strip test_full.py_isspace line)))
    /\ snd (describe_image suffix
              (mkClient key
                 (getenv_or env "OLLAMA_BASE_URL" "https://ollama.com/v1")
                 (getenv_or env "VISION_MODEL" "qwen3-vl:235b-cloud")
                 default_temperature default_max_tokens)
              (absolute path) (Some "Describe this image in detail.") env)
       = Return text
    /\ text <> "".
Proof.
  rewrite test_full_flow_run.
  destruct (environ env "OLLAMA_API_KEY") as [[|a key]|]; try discriminate.
  cbv zeta.
  destruct (openai_new env _ _); [|discriminate].
  destruct (api_models_list env) as [[]|e]; [|discriminate].
  destruct (find_test_image_result test_full.test_images env)
    as (Hsome & Hnone).
  destruct (snd (test_full.find_test_image test_full.test_images env))
    as [[img_name|]|e]; [| |discriminate].
  - cbn [snd].
    destruct (snd (describe_image _ _ _ _ _)) as [text|e] eqn:Hd;
      [|discriminate].
    intros _. destruct (Hsome img_name eq_refl) as (Himg & Hsplit).
    exists (String a key), img_name, text.
    repeat split; try exact Hd; try exact Himg.
    + now left.
    + intros ->. now apply describe_image_never_empty in Hd.
  - destruct stdin as [line| |e]; [|discriminate|discriminate].
    destruct (test_full.strip test_full.py_isspace line) as [|c rest] eqn:Hs;
      [discriminate|].
    cbv zeta. destruct (fs_exists env _) as [[|]|message] eqn:Hex;
      try discriminate.
    cbn [snd].
    destruct (snd (describe_image _ _ _ _ _)) as [text|e] eqn:Hd;
      [|discriminate].
    intros _.
    exists (String a key),
      (test_full.strip test_full.is_quote (String c rest)), text.
    repeat split; try exact Hd; try exact Hex.
    + right. split; [now apply Hnone|]. exists line. now rewrite Hs.
    + intros ->. now apply describe_image_never_empty in Hd.
Qed.

Lemma test_passes_only_with_description_witness :
  snd (test_full.test_full_flow Sample.posix_suffix Sample.posix_absolute
         test_full.EndOfFile Sample2.env_test) = Return (Some true)
  /\ exists key path text,
       environ Sample2.env_test "OLLAMA_API_KEY" = Some key
       /\ fs_exists Sample2.env_test path = Answer true
       /\ snd (describe_image Sample.posix_suffix
                 (mkClient key "https://ollama.com/v1" "qwen3-vl:235b-cloud"
                    default_temperature default_max_tokens)
                 (Sample.posix_absolute path)
                 (Some "Describe this image in detail.") Sample2.env_test)
          = Return text.
Proof.
  split; [reflexivity|].
  destruct (test_passes_only_with_description Sample.posix_suffix
              Sample.posix_absolute test_full.EndOfFile Sample2.env_test
              ltac:(reflexivity))
    as (key & path & text & Hkey & _ & Hex & _ & Hd & _).
  now exists key, path, text.
Defined.
